(** * Author identity resolution and merge engine

    A shallow embedding of [app/api/api_v1/authors.py]: the name matcher
    ([_pick_best_name_match]), the profile merger and confidence scorer
    ([_merge_author_data]), the identifier normaliser
    ([_normalize_identifiers]), the orchestrator
    ([AuthorSearchService.search_author]), the paper-based fallbacks
    ([_search_semantic_scholar] and its four siblings) and the two
    endpoints of the router.

    Conventions of the embedding.
    - A Python [str] is a [string] read character by character: an [ascii]
      is the code point of one character, so the strings of the model are
      the [str] values whose code points are below 256 (Latin-1 text), and
      the [str] methods are modelled on that range.
    - A Python [float] is a binary64 primitive float; the arithmetic of the
      confidence score is IEEE-754 arithmetic, as in CPython.
    - A provider dictionary ([Dict[str, Any]]) is a record whose fields carry
      the types declared by [AuthorResponse]; a key that is absent and a key
      bound to [None] are both [None] (the code reads every key through
      [dict.get], which does not tell them apart).
    - A Python [set] is a [gset]; [list(a_set)] is [elements].
    - Code that may raise returns in the error monad [result]. *)

From Stdlib Require Import ZArith String Ascii List Lia Permutation.
From Stdlib Require Import Floats.
From stdpp Require Import gmap strings list.

Local Open Scope Z_scope.
Local Open Scope string_scope.

(** ** The [str] methods the module calls *)

Module PyStr.

(** Truth value of a string: [bool(s)]. *)
Definition truthy (s : string) : bool :=
  match s with
  | EmptyString => false
  | String _ _ => true
  end.

(** The lower-case mapping of a code point below 256: the letters A-Z
    and the accented capitals U+00C0-U+00DE (without the sign U+00D7) are 32
    below their lower-case letters; every other code point is its own. *)
Definition lower_char (c : ascii) : ascii :=
  let n := N_of_ascii c in
  if (((65 <=? n) && (n <=? 90))
      || ((192 <=? n) && (n <=? 214))
      || ((216 <=? n) && (n <=? 222)))%N
  then ascii_of_N (n + 32) else c.

(** [s.lower()] *)
Fixpoint lower (s : string) : string :=
  match s with
  | EmptyString => EmptyString
  | String c s' => String (lower_char c) (lower s')
  end.

(** [s.replace(old, "")] for a one-character [old]. *)
Fixpoint remove_char (old : ascii) (s : string) : string :=
  match s with
  | EmptyString => EmptyString
  | String c s' =>
      if Ascii.eqb c old then remove_char old s'
      else String c (remove_char old s')
  end.

(** [c.isspace()] below 256: TAB, LF, VT, FF, CR, FS, GS, RS, US, the
    blank, NEL (U+0085) and the no-break space (U+00A0). *)
Definition is_space (c : ascii) : bool :=
  let n := N_of_ascii c in
  (((9 <=? n) && (n <=? 13)) || ((28 <=? n) && (n <=? 32))
   || (n =? 133) || (n =? 160))%N.

Fixpoint lstrip (s : string) : string :=
  match s with
  | EmptyString => EmptyString
  | String c s' => if is_space c then lstrip s' else s
  end.

Fixpoint rstrip (s : string) : string :=
  match s with
  | EmptyString => EmptyString
  | String c s' =>
      match rstrip s' with
      | EmptyString => if is_space c then EmptyString else String c EmptyString
      | r => String c r
      end
  end.

(** [s.strip()] *)
Definition strip (s : string) : string := rstrip (lstrip s).

(** [sub in s] *)
Fixpoint contains (sub s : string) : bool :=
  String.prefix sub s ||
  match s with
  | EmptyString => false
  | String _ s' => contains sub s'
  end.

(** [s.startswith(p)] *)
Definition startswith (p s : string) : bool := String.prefix p s.

(** [s[1:]] *)
Definition tail (s : string) : string :=
  match s with
  | EmptyString => EmptyString
  | String _ s' => s'
  end.

(** [c.isdigit()] below 256: the digits 0-9 and the superscripts two,
    three and one (U+00B2, U+00B3, U+00B9). *)
Definition is_digit_char (c : ascii) : bool :=
  let n := N_of_ascii c in
  (((48 <=? n) && (n <=? 57)) || (n =? 178) || (n =? 179) || (n =? 185))%N.

Fixpoint all_digits (s : string) : bool :=
  match s with
  | EmptyString => true
  | String c s' => is_digit_char c && all_digits s'
  end.

(** [s.isdigit()]: every character is a digit and there is at least one. *)
Definition isdigit (s : string) : bool := truthy s && all_digits s.

(** [s.split(sep)] for a one-character separator. *)
Fixpoint split (sep : ascii) (s : string) : list string :=
  match s with
  | EmptyString => [EmptyString]
  | String c s' =>
      if Ascii.eqb c sep then EmptyString :: split sep s'
      else match split sep s' with
           | h :: t => String c h :: t
           | [] => [String c EmptyString]
           end
  end.

(** [s.split(sep)[-1]] *)
Definition last_segment (sep : ascii) (s : string) : string :=
  List.last (split sep s) EmptyString.

Definition slash : ascii := "/"%char.
Definition dot : ascii := "."%char.

End PyStr.

(** ** The [float] operations the module uses *)

Module PyFloat.

Local Open Scope float_scope.

(** The decimal literals of the source, as the binary64 values CPython
    reads them to. *)
Definition f0_0 : float := 0.
Definition f0_1 : float := 0x1.999999999999ap-4. (* 0.1 *)
Definition f0_2 : float := 0x1.999999999999ap-3. (* 0.2 *)
Definition f0_3 : float := 0x1.3333333333333p-2. (* 0.3 *)
Definition f1_0 : float := 1.

(** [float(n)] for a small non-negative [int]. *)
Definition of_int (n : Z) : float := PrimFloat.of_uint63 (Uint63.of_Z n).

(** [min(a, b)]: the builtin answers its first argument unless a later
    one compares smaller. *)
Definition min (a b : float) : float := if PrimFloat.ltb b a then b else a.

(** [round(x, 2)].  CPython rounds the exact value of [x] to two decimals
    (ties to even) and reads the decimal back to the nearest binary64.
    A finite [x] is [m * 2^e]: from [e = -6] upward the spacing of the
    floats exceeds 0.01 and [x] is its own answer; below, the rounded
    count [k] of hundredths is under [2^53], so [k] and [100] are exact
    and the IEEE division [k / 100] is the nearest float of the decimal. *)
Definition round2 (x : float) : float :=
  match Prim2SF x with
  | S754_finite s m e =>
      if (-6 <=? e)%Z then x
      else
        let n := (Z.pos m * 100)%Z in
        let d := (2 ^ (- e))%Z in
        let q := (n / d)%Z in
        let r := (n mod d)%Z in
        let k := if (2 * r <? d)%Z then q
                 else if (d <? 2 * r)%Z then (q + 1)%Z
                 else if Z.even q then q else (q + 1)%Z in
        let y := of_int k / of_int 100 in
        if s then - y else y
  | _ => x
  end.

End PyFloat.

(** ** The service: data model and operations *)

Module Authors.

Import PyStr.

(** *** Dictionaries *)

(** One entry of an [affiliations] list. *)
Record affiliation := mk_affiliation {
  institution_id : option string;
  institution_name : option string;
  country : option string;
  start_date : option string;
  end_date : option string
}.

(** A partial record returned by a provider call and the merged profile
    are dictionaries over the same keys (those of [AuthorResponse]); the
    orchestrator feeds a merged profile back into the merge. *)
Record author_dict := mk_author_dict {
  name : option string;
  author_id : option string;
  orcid : option string;
  affiliations : list affiliation;
  homepage_url : option string;
  email : option string;
  h_index : option Z;
  paper_count : option Z;
  citation_count : option Z;
  fields_of_study : list string;
  profile_image_url : option string;
  last_updated : option string;
  sources : list string;
  confidence_score : option float
}.

(** The literal [{}]. *)
Definition empty_dict : author_dict :=
  {| name := None; author_id := None; orcid := None; affiliations := [];
     homepage_url := None; email := None; h_index := None;
     paper_count := None; citation_count := None; fields_of_study := [];
     profile_image_url := None; last_updated := None; sources := [];
     confidence_score := None |}.

Definition is_some {A} (v : option A) : bool :=
  match v with Some _ => true | None => false end.

Definition is_cons {A} (l : list A) : bool :=
  match l with [] => false | _ :: _ => true end.

(** [bool(d)]: a dictionary is true when it holds a key.  A dictionary
    whose keys are all bound to [None] or [[]] is read as [{}]: the merge
    loop leaves its state as it is on either. *)
Definition dict_truthy (d : author_dict) : bool :=
  is_some (name d) || is_some (author_id d) || is_some (orcid d)
  || is_cons (affiliations d) || is_some (homepage_url d)
  || is_some (email d) || is_some (h_index d) || is_some (paper_count d)
  || is_some (citation_count d) || is_cons (fields_of_study d)
  || is_some (profile_image_url d) || is_some (last_updated d)
  || is_cons (sources d) || is_some (confidence_score d).

(** [bool(v)] for [v : Optional[str]] and [v : Optional[int]]. *)
Definition str_truthy (v : option string) : bool :=
  match v with Some s => truthy s | None => false end.

Definition int_truthy (v : option Z) : bool :=
  match v with Some n => negb (n =? 0)%Z | None => false end.

(** [v or ""] *)
Definition or_empty (v : option string) : string :=
  match v with Some s => s | None => EmptyString end.

(** [a or b] on optional strings. *)
Definition str_or (a b : option string) : option string :=
  if str_truthy a then a else b.

Definition with_author_id (v : option string) (d : author_dict) : author_dict :=
  {| name := name d; author_id := v; orcid := orcid d;
     affiliations := affiliations d; homepage_url := homepage_url d;
     email := email d; h_index := h_index d; paper_count := paper_count d;
     citation_count := citation_count d;
     fields_of_study := fields_of_study d;
     profile_image_url := profile_image_url d;
     last_updated := last_updated d; sources := sources d;
     confidence_score := confidence_score d |}.

Definition with_orcid (v : option string) (d : author_dict) : author_dict :=
  {| name := name d; author_id := author_id d; orcid := v;
     affiliations := affiliations d; homepage_url := homepage_url d;
     email := email d; h_index := h_index d; paper_count := paper_count d;
     citation_count := citation_count d;
     fields_of_study := fields_of_study d;
     profile_image_url := profile_image_url d;
     last_updated := last_updated d; sources := sources d;
     confidence_score := confidence_score d |}.

(** An element of the list [asyncio.gather(..., return_exceptions=True)]
    answers: the exception a call raised, or the dictionary it returned. *)
Inductive gathered :=
| Raised (e : string)
| Returned (d : author_dict).

(** *** [_pick_best_name_match] *)

(** A provider-native candidate: the keys the matcher reads, and the names
    of the other keys the dictionary holds. *)
Record candidate := mk_candidate {
  cand_name : option string;                    (* "name" *)
  cand_aliases : list string;                   (* "aliases" *)
  cand_display_name : option string;            (* "display_name" *)
  cand_display_name_alternatives : list string; (* "display_name_alternatives" *)
  cand_author : option string;                  (* "author" *)
  cand_other : list string
}.

Definition cand_truthy (c : candidate) : bool :=
  is_some (cand_name c) || is_cons (cand_aliases c)
  || is_some (cand_display_name c)
  || is_cons (cand_display_name_alternatives c)
  || is_some (cand_author c) || is_cons (cand_other c).

(** [norm]: [(n or "").lower().replace(".", "").strip()] *)
Definition norm (n : option string) : string :=
  strip (remove_char dot (lower (or_empty n))).

(** The list [names] of a candidate before the filter, by provider shape. *)
Definition names_of (s2 openalex dblp : bool) (c : candidate)
  : list (option string) :=
  if s2 then cand_name c :: map Some (cand_aliases c)
  else if openalex then
    cand_display_name c :: map Some (cand_display_name_alternatives c)
  else if dblp then [str_or (cand_author c) (cand_name c)]
  else [cand_name c].

(** [[n for n in names if n]] *)
Definition truthy_names (names : list (option string)) : list string :=
  omap (fun v => match v with
                 | Some s => if truthy s then Some s else None
                 | None => None
                 end) names.

Definition opt_cand_truthy (best : option candidate) : bool :=
  match best with Some c => cand_truthy c | None => false end.

(** The [for c in candidates] loop; [best] is the loop variable and the
    result is its value when the loop ends or breaks. *)
Fixpoint pick_loop (s2 openalex dblp : bool) (t : string)
    (candidates : list candidate) (best : option candidate)
  : option candidate :=
  match candidates with
  | [] => best
  | c :: rest =>
      let names := truthy_names (names_of s2 openalex dblp c) in
      if negb (is_cons names) then pick_loop s2 openalex dblp t rest best
      else if existsb (fun n => String.eqb (norm (Some n)) t) names
      then Some c
      else if negb (opt_cand_truthy best)
              && existsb (fun n => contains t (norm (Some n))
                                   || contains (norm (Some n)) t) names
      then pick_loop s2 openalex dblp t rest (Some c)
      else pick_loop s2 openalex dblp t rest best
  end.

Definition _pick_best_name_match (target_name : string)
    (candidates : list candidate) (s2 openalex dblp : bool)
  : option candidate :=
  let t := norm (Some target_name) in
  let best := pick_loop s2 openalex dblp t candidates None in
  if opt_cand_truthy best then best else head candidates.


(** *** [_merge_author_data] *)

(** What the loop over [valid_results] mutates: the keys of [merged] it
    writes and the three lists of collected counts.  During the loop
    [merged["fields_of_study"]] is a set. *)
Record merge_state := mk_merge_state {
  m_sources : list string;
  paper_counts : list Z;
  citation_counts : list Z;
  h_indices : list Z;
  m_author_id : option string;
  m_orcid : option string;
  m_homepage_url : option string;
  m_profile_image_url : option string;
  m_affiliations : list affiliation;
  m_fields_of_study : gset string
}.

Definition init_state : merge_state :=
  {| m_sources := []; paper_counts := []; citation_counts := [];
     h_indices := []; m_author_id := None; m_orcid := None;
     m_homepage_url := None; m_profile_image_url := None;
     m_affiliations := []; m_fields_of_study := ∅ |}.

(** [[r for r in results if isinstance(r, dict) and r]] *)
Definition valid_results (results : list gathered) : list author_dict :=
  omap (fun r => match r with
                 | Returned d => if dict_truthy d then Some d else None
                 | Raised _ => None
                 end) results.

(** [if isinstance(result.get(k), int): xs.append(result[k])] *)
Definition collect (xs : list Z) (v : option Z) : list Z :=
  match v with
  | Some n => xs ++ [n]
  | None => xs
  end.

(** [if not merged[k] and result.get(k): merged[k] = result[k]] *)
Definition keep_first (cur new : option string) : option string :=
  if negb (str_truthy cur) && str_truthy new then new else cur.

(** The body of [for result in valid_results]. *)
Definition merge_step (st : merge_state) (result : author_dict)
  : merge_state :=
  {| m_sources := m_sources st ++ sources result;
     paper_counts := collect (paper_counts st) (paper_count result);
     citation_counts := collect (citation_counts st) (citation_count result);
     h_indices := collect (h_indices st) (h_index result);
     m_author_id := keep_first (m_author_id st) (author_id result);
     m_orcid := keep_first (m_orcid st) (orcid result);
     m_homepage_url := keep_first (m_homepage_url st) (homepage_url result);
     m_profile_image_url :=
       keep_first (m_profile_image_url st) (profile_image_url result);
     m_affiliations :=
       if is_cons (affiliations result)
       then m_affiliations st ++ affiliations result
       else m_affiliations st;
     m_fields_of_study :=
       if is_cons (fields_of_study result)
       then m_fields_of_study st ∪ list_to_set (fields_of_study result)
       else m_fields_of_study st |}.

(** [max(xs)] on a non-empty list of integers; [None] stands for the
    empty list, which the code never passes to [max]. *)
Definition max_of (xs : list Z) : option Z :=
  match xs with
  | [] => None
  | x :: xs' => Some (fold_left Z.max xs' x)
  end.

(** The key of the deduplication pass. *)
Definition aff_key (aff : affiliation) : string * string * string :=
  (or_empty (institution_id aff),
   or_empty (institution_name aff),
   or_empty (country aff)).

(** The body of [for aff in merged["affiliations"]], on the pair
    [(seen, dedup_affs)]. *)
Definition dedup_step
    (st : gset (string * string * string) * list affiliation)
    (aff : affiliation)
  : gset (string * string * string) * list affiliation :=
  let key := aff_key aff in
  if decide (key ∈ st.1) then st
  else ({[ key ]} ∪ st.1, (st.2 ++ [aff])%list).

Definition dedup_affiliations (affs : list affiliation) : list affiliation :=
  if is_cons affs then (fold_left dedup_step affs (∅, [])).2 else affs.

(** The provider tags that count as profile sources. *)
Definition authoritative : gset string :=
  {[ "openalex"; "semantic_scholar"; "dblp" ]}.

(** The sum [score] before [min] and [round]. *)
Definition raw_score (srcs : list string) (pc cc : option Z)
    (oid : option string) (h : option Z) : float :=
  let score := PyFloat.f0_0 in
  let profile_sources : gset string :=
    list_to_set (filter (fun s => s ∈ authoritative) srcs) in
  let score :=
    (score + PyFloat.f0_3
             * PyFloat.of_int (Z.min (Z.of_nat (size profile_sources)) 2))%float in
  let score := if int_truthy pc then (score + PyFloat.f0_2)%float else score in
  let score := if int_truthy cc then (score + PyFloat.f0_2)%float else score in
  let score := if str_truthy oid then (score + PyFloat.f0_1)%float else score in
  let score := if int_truthy h then (score + PyFloat.f0_1)%float else score in
  score.

(** [round(min(score, 1.0), 2)] *)
Definition confidence (srcs : list string) (pc cc : option Z)
    (oid : option string) (h : option Z) : float :=
  PyFloat.round2 (PyFloat.min (raw_score srcs pc cc oid h) PyFloat.f1_0).

(** [now] is the reading of [datetime.now().isoformat()]. *)
Definition _merge_author_data (now name : string) (results : list gathered)
  : author_dict :=
  let st := fold_left merge_step (valid_results results) init_state in
  let pc := Some (default 0 (max_of (paper_counts st))) in
  let cc := Some (default 0 (max_of (citation_counts st))) in
  let h := max_of (h_indices st) in
  let srcs := elements (list_to_set (m_sources st) : gset string) in
  {| name := Some name;
     author_id := m_author_id st;
     orcid := m_orcid st;
     affiliations := dedup_affiliations (m_affiliations st);
     homepage_url := m_homepage_url st;
     email := None;
     h_index := h;
     paper_count := pc;
     citation_count := cc;
     fields_of_study := elements (m_fields_of_study st);
     profile_image_url := m_profile_image_url st;
     last_updated := Some now;
     sources := srcs;
     confidence_score := Some (confidence srcs pc cc (m_orcid st) h) |}.

(** *** [_normalize_identifiers] *)

Definition _normalize_identifiers (data : author_dict) : author_dict :=
  let out := data in
  let out :=
    match author_id out with
    | Some aid =>
        if contains "openalex.org/" aid
        then with_author_id (Some (last_segment slash aid)) out
        else out
    | None => out
    end in
  match orcid out with
  | Some o =>
      if contains "/" o
      then with_orcid (Some (last_segment slash o)) out
      else out
  | None => out
  end.

(** *** [search_author] *)

Inductive exn :=
| AttributeError (msg : string).

(** A computation that returns a value or raises. *)
Inductive result (A : Type) :=
| Ok (a : A)
| Raise (e : exn).
Arguments Ok {A} a.
Arguments Raise {A} e.

Definition bind {A B} (m : result A) (k : A -> result B) : result B :=
  match m with
  | Ok a => k a
  | Raise e => Raise e
  end.

Notation "x <- m ;; k" := (bind m (fun x => k))
  (at level 100, m at next level, right associativity).

(** The outbound calls of one resolution, as the answers they give: what
    [gather] collects for each fan-out call, and what each detail lookup
    returns for an identifier. *)
Record providers := mk_providers {
  _fetch_semantic_scholar_author_profile : string -> gathered;
  _fetch_openalex_author_profile : string -> gathered;
  _fetch_dblp_author_profile : string -> gathered;
  _search_semantic_scholar : string -> gathered;
  _search_openalex : string -> gathered;
  _search_dblp : string -> gathered;
  _search_europepmc : string -> gathered;
  _search_pubmed : string -> gathered;
  _fetch_semantic_scholar_author_details : string -> option author_dict;
  _fetch_openalex_author_details : string -> option author_dict;
  _fetch_orcid_author_record : string -> option author_dict
}.

(** [d.get(k, "").isdigit()] for a key [k] that [d] holds: [get] answers
    the stored value, also when it is [None], and [None] has no method
    [isdigit]. *)
Definition get_isdigit (v : option string) : result bool :=
  match v with
  | Some s => Ok (isdigit s)
  | None => Raise (AttributeError "'NoneType' object has no attribute 'isdigit'")
  end.

(** [if details: merged_profile = self._merge_author_data(name,
    [merged_profile, details])] *)
Definition merge_details (now name : string) (merged_profile : author_dict)
    (details : option author_dict) : author_dict :=
  match details with
  | Some d =>
      if dict_truthy d
      then _merge_author_data now name [Returned merged_profile; Returned d]
      else merged_profile
  | None => merged_profile
  end.

Definition search_author (P : providers) (now name : string)
  : result author_dict :=
  let results_profiles :=
    [ _fetch_semantic_scholar_author_profile P name;
      _fetch_openalex_author_profile P name;
      _fetch_dblp_author_profile P name ] in
  let results_fallbacks :=
    [ _search_semantic_scholar P name;
      _search_openalex P name;
      _search_dblp P name;
      _search_europepmc P name;
      _search_pubmed P name ] in
  let merged_profile :=
    _merge_author_data now name (results_profiles ++ results_fallbacks) in
  numeric <- get_isdigit (author_id merged_profile) ;;
  let s2_id := if numeric then author_id merged_profile else None in
  let merged_profile :=
    match s2_id with
    | Some i =>
        if truthy i
        then merge_details now name merged_profile
               (_fetch_semantic_scholar_author_details P i)
        else merged_profile
    | None => merged_profile
    end in
  let aid := or_empty (author_id merged_profile) in
  let openalex_id :=
    if contains "openalex.org" aid
       || (startswith "A" aid && isdigit (tail aid))
    then Some (if contains "/" aid then last_segment slash aid else aid)
    else None in
  let merged_profile :=
    match openalex_id with
    | Some i =>
        if truthy i
        then merge_details now name merged_profile
               (_fetch_openalex_author_details P i)
        else merged_profile
    | None => merged_profile
    end in
  let merged_profile :=
    match orcid merged_profile with
    | Some o =>
        if truthy o
        then merge_details now name merged_profile
               (_fetch_orcid_author_record P (last_segment slash o))
        else merged_profile
    | None => merged_profile
    end in
  let merged_profile := _normalize_identifiers merged_profile in
  Ok merged_profile.

(** The providers of a query that nobody knows: every fan-out call
    answers [{}] and every detail lookup answers [None]. *)
Definition silent_providers : providers :=
  {| _fetch_semantic_scholar_author_profile := fun _ => Returned empty_dict;
     _fetch_openalex_author_profile := fun _ => Returned empty_dict;
     _fetch_dblp_author_profile := fun _ => Returned empty_dict;
     _search_semantic_scholar := fun _ => Returned empty_dict;
     _search_openalex := fun _ => Returned empty_dict;
     _search_dblp := fun _ => Returned empty_dict;
     _search_europepmc := fun _ => Returned empty_dict;
     _search_pubmed := fun _ => Returned empty_dict;
     _fetch_semantic_scholar_author_details := fun _ => None;
     _fetch_openalex_author_details := fun _ => None;
     _fetch_orcid_author_record := fun _ => None |}.

End Authors.

(** ** Notions the properties are stated with *)

Module Spec.

Import PyStr Authors.

(** The partial records of a list of gathered answers, in order. *)
Definition dicts_of (results : list gathered) : list author_dict :=
  omap (fun r => match r with
                 | Returned d => Some d
                 | Raised _ => None
                 end) results.

(** The first value of key [f] that is not [None], in input order. *)
Fixpoint first_non_null {A} (f : author_dict -> option A)
    (partials : list author_dict) : option A :=
  match partials with
  | [] => None
  | d :: rest =>
      match f d with
      | Some v => Some v
      | None => first_non_null f rest
      end
  end.

(** The first value of key [f] that is true (neither [None] nor [""]),
    in input order. *)
Fixpoint first_truthy (f : author_dict -> option string)
    (partials : list author_dict) : option string :=
  match partials with
  | [] => None
  | d :: rest => if str_truthy (f d) then f d else first_truthy f rest
  end.

(** A key kept by "first wins" holds its start value if that is true,
    else the first true value of the records, else its start value. *)
Definition first_wins (cur : option string) (f : author_dict -> option string)
    (ds : list author_dict) : option string :=
  if str_truthy cur then cur
  else match first_truthy f ds with
       | Some v => Some v
       | None => cur
       end.

(** The integers the partial records supply for key [f]. *)
Definition supplied (f : author_dict -> option Z) (results : list gathered)
  : list Z :=
  omap f (dicts_of results).

(** [m] is the maximum of [vals]: one of them, and no smaller than any. *)
Definition is_maximum (m : Z) (vals : list Z) : Prop :=
  In m vals /\ forall v, In v vals -> (v <= m)%Z.

(** A partial record that reports zero for the three numeric keys. *)
Definition zero_counts : author_dict :=
  {| name := None; author_id := None; orcid := None; affiliations := [];
     homepage_url := None; email := None; h_index := Some 0%Z;
     paper_count := Some 0%Z; citation_count := Some 0%Z;
     fields_of_study := []; profile_image_url := None;
     last_updated := None; sources := []; confidence_score := None |}.

(** A partial record that carries an e-mail address. *)
Definition with_email : author_dict :=
  {| name := None; author_id := None; orcid := None; affiliations := [];
     homepage_url := None; email := Some "ada@example.org"; h_index := None;
     paper_count := None; citation_count := None;
     fields_of_study := []; profile_image_url := None;
     last_updated := None; sources := ["openalex"];
     confidence_score := None |}.

(** A partial record of an authoritative provider that reports the
    h-index [h]. *)
Definition reports_h_index (h : Z) : author_dict :=
  {| name := None; author_id := None; orcid := None; affiliations := [];
     homepage_url := None; email := None; h_index := Some h;
     paper_count := None; citation_count := None;
     fields_of_study := []; profile_image_url := None;
     last_updated := None; sources := ["semantic_scholar"];
     confidence_score := None |}.

(** The profile merged from one record that reports an h-index of 0. *)
Definition merged_h_zero : author_dict :=
  _merge_author_data "2025-01-01T00:00:00" "Ada Example"
    [Returned (reports_h_index 0)].

(** A partial record that reports [n] papers under tag [src]. *)
Definition papers (src : string) (n : Z) : author_dict :=
  {| name := None; author_id := None; orcid := None; affiliations := [];
     homepage_url := None; email := None; h_index := None;
     paper_count := Some n; citation_count := None;
     fields_of_study := []; profile_image_url := None;
     last_updated := None; sources := [src]; confidence_score := None |}.

(** The answers of the eight fan-out calls, in the order the
    orchestrator merges them. *)
Definition fan_out (P : providers) (name : string) : list gathered :=
  [ _fetch_semantic_scholar_author_profile P name;
    _fetch_openalex_author_profile P name;
    _fetch_dblp_author_profile P name;
    _search_semantic_scholar P name;
    _search_openalex P name;
    _search_dblp P name;
    _search_europepmc P name;
    _search_pubmed P name ].

(** The end-to-end scenario of two sources: a profile-style source knows
    an identifier, an ORCID URL and ten papers; a fallback source knows
    fifteen papers and one field of study. *)
Definition profile_record : author_dict :=
  {| name := None; author_id := Some "123";
     orcid := Some "https://orcid.org/0000-0001-2345-6789";
     affiliations := []; homepage_url := None; email := None;
     h_index := None; paper_count := Some 10%Z; citation_count := None;
     fields_of_study := []; profile_image_url := None;
     last_updated := None; sources := ["semantic_scholar"];
     confidence_score := None |}.

Definition fallback_record : author_dict :=
  {| name := None; author_id := None; orcid := None;
     affiliations := []; homepage_url := None; email := None;
     h_index := None; paper_count := Some 15%Z; citation_count := None;
     fields_of_study := ["AI"]; profile_image_url := None;
     last_updated := None; sources := ["openalex"];
     confidence_score := None |}.

Definition two_source_providers : providers :=
  {| _fetch_semantic_scholar_author_profile := fun _ => Returned profile_record;
     _fetch_openalex_author_profile := fun _ => Returned empty_dict;
     _fetch_dblp_author_profile := fun _ => Raised "TimeoutError";
     _search_semantic_scholar := fun _ => Returned empty_dict;
     _search_openalex := fun _ => Returned fallback_record;
     _search_dblp := fun _ => Returned empty_dict;
     _search_europepmc := fun _ => Returned empty_dict;
     _search_pubmed := fun _ => Returned empty_dict;
     _fetch_semantic_scholar_author_details := fun _ => None;
     _fetch_openalex_author_details := fun _ => None;
     _fetch_orcid_author_record := fun _ => None |}.

(** A call that failed or returned an empty dictionary. *)
Definition no_contribution (r : gathered) : Prop :=
  match r with
  | Raised _ => True
  | Returned d => dict_truthy d = false
  end.

(** Some name of the candidate equals the target after [norm]. *)
Definition exact_match (s2 openalex dblp : bool) (t : string)
    (c : candidate) : bool :=
  existsb (fun n => String.eqb (norm (Some n)) t)
          (truthy_names (names_of s2 openalex dblp c)).

(** Some name of the candidate holds the target, or the target holds it,
    after [norm]. *)
Definition substring_match (s2 openalex dblp : bool) (t : string)
    (c : candidate) : bool :=
  existsb (fun n => contains t (norm (Some n)) || contains (norm (Some n)) t)
          (truthy_names (names_of s2 openalex dblp c)).

(** The policy of the matcher: the first exact match, else the first
    substring match, else the first candidate. *)
Definition pick_spec (s2 openalex dblp : bool) (t : string)
    (candidates : list candidate) : option candidate :=
  match List.find (exact_match s2 openalex dblp t) candidates with
  | Some c => Some c
  | None =>
      match List.find (substring_match s2 openalex dblp t) candidates with
      | Some c => Some c
      | None => head candidates
      end
  end.

(** A candidate that has the key ["name"] only. *)
Definition named (n : string) : candidate :=
  {| cand_name := Some n; cand_aliases := []; cand_display_name := None;
     cand_display_name_alternatives := []; cand_author := None;
     cand_other := [] |}.

End Spec.

(** ** The paper-based fallbacks *)

Module Enrichment.

Import PyStr Authors.

(** A key of a paper dictionary that the code reads with [in] or with
    [get(k, default)], which tell an absent key from one bound to [None]. *)
Inductive key (A : Type) :=
| Absent
| Null
| Bound (a : A).
Arguments Absent {A}.
Arguments Null {A}.
Arguments Bound {A} a.

(** A paper as a client returns it: the two keys the fallbacks read. *)
Record paper := mk_paper {
  fieldsOfStudy : key (list string);
  citationCount : key Z
}.

(** What [await client.search_papers(query=..., limit=50)] does: it raises,
    or it returns [None], or a list whose entries are papers or [None]. *)
Inductive answer :=
| Fails (e : string)
| NoList
| Papers (ps : list (option paper)).

(** The paper clients of the service, by query string. *)
Record clients := mk_clients {
  semantic_scholar : string -> answer;
  openalex : string -> answer;
  dblp : string -> answer;
  europepmc : string -> answer;
  pubmed : string -> answer
}.

(** The query [f'author:"{name}"']. *)
Definition author_query (name : string) : string :=
  "author:" ++ String "034"%char (name ++ String "034"%char "").

(** The loop [for p in papers: if "fieldsOfStudy" in p:
    fields.update(p["fieldsOfStudy"])]; [None] when it raises [TypeError]
    (a paper that is [None], or the key bound to [None]). *)
Fixpoint collect_fields (papers : list (option paper)) (fields : gset string)
  : option (gset string) :=
  match papers with
  | [] => Some fields
  | None :: _ => None
  | Some p :: rest =>
      match fieldsOfStudy p with
      | Absent => collect_fields rest fields
      | Null => None
      | Bound l => collect_fields rest (fields ∪ list_to_set l)
      end
  end.

(** [[p.get("citationCount", 0) for p in papers]]; [None] when a paper is
    [None] and [get] raises [AttributeError]. *)
Fixpoint citations_of (papers : list (option paper))
  : option (list (option Z)) :=
  match papers with
  | [] => Some []
  | None :: _ => None
  | Some p :: rest =>
      match citations_of rest with
      | Some cs =>
          Some (match citationCount p with
                | Absent => Some 0%Z
                | Null => None
                | Bound n => Some n
                end :: cs)
      | None => None
      end
  end.

(** The scan of the builtin [max] from its first item: an item replaces the
    running maximum when it compares greater, and comparing with [None]
    raises [TypeError] (the outer [None]). *)
Fixpoint max_scan (cur : option Z) (rest : list (option Z))
  : option (option Z) :=
  match rest with
  | [] => Some cur
  | item :: rest' =>
      match cur, item with
      | Some c, Some v => max_scan (Some (if (c <? v)%Z then v else c)) rest'
      | _, _ => None
      end
  end.

(** [max(citations) if citations else None] *)
Definition max_citations (citations : list (option Z)) : option (option Z) :=
  match citations with
  | [] => Some None
  | c :: rest => max_scan c rest
  end.

(** The dictionary of a fallback that counted [n] papers. *)
Definition counted (name : string) (n : nat) (cc : option Z)
    (fos : list string) (src : string) : author_dict :=
  {| name := Some name; author_id := None; orcid := None; affiliations := [];
     homepage_url := None; email := None; h_index := None;
     paper_count := Some (Z.of_nat n); citation_count := cc;
     fields_of_study := fos; profile_image_url := None;
     last_updated := None; sources := [src]; confidence_score := None |}.

Definition _search_semantic_scholar (C : clients) (name : string)
  : author_dict :=
  match semantic_scholar C (author_query name) with
  | Fails _ => empty_dict
  | NoList => empty_dict
  | Papers [] => empty_dict
  | Papers papers =>
      match collect_fields papers ∅ with
      | Some fields =>
          counted name (length papers) None (elements fields)
                  "semantic_scholar"
      | None => empty_dict
      end
  end.

Definition _search_openalex (C : clients) (name : string) : author_dict :=
  match openalex C (author_query name) with
  | Fails _ => empty_dict
  | NoList => empty_dict
  | Papers [] => empty_dict
  | Papers papers =>
      match citations_of papers with
      | Some citations =>
          match max_citations citations with
          | Some cc => counted name (length papers) cc [] "openalex"
          | None => empty_dict
          end
      | None => empty_dict
      end
  end.

Definition _search_dblp (C : clients) (name : string) : author_dict :=
  match dblp C (author_query name) with
  | Fails _ => empty_dict
  | NoList => empty_dict
  | Papers [] => empty_dict
  | Papers papers => counted name (length papers) None [] "dblp"
  end.

Definition _search_europepmc (C : clients) (name : string) : author_dict :=
  match europepmc C (author_query name) with
  | Fails _ => empty_dict
  | NoList => empty_dict
  | Papers [] => empty_dict
  | Papers papers => counted name (length papers) None [] "europepmc"
  end.

Definition _search_pubmed (C : clients) (name : string) : author_dict :=
  match pubmed C (author_query name) with
  | Fails _ => empty_dict
  | NoList => empty_dict
  | Papers [] => empty_dict
  | Papers papers => counted name (length papers) None [] "pubmed"
  end.

(** The providers of a service whose five fallbacks run on the paper
    clients [C]; the other calls are those of [P]. *)
Definition with_clients (C : clients) (P : providers) : providers :=
  {| _fetch_semantic_scholar_author_profile :=
       _fetch_semantic_scholar_author_profile P;
     _fetch_openalex_author_profile := _fetch_openalex_author_profile P;
     _fetch_dblp_author_profile := _fetch_dblp_author_profile P;
     Authors._search_semantic_scholar :=
       fun name => Returned (_search_semantic_scholar C name);
     Authors._search_openalex :=
       fun name => Returned (_search_openalex C name);
     Authors._search_dblp := fun name => Returned (_search_dblp C name);
     Authors._search_europepmc :=
       fun name => Returned (_search_europepmc C name);
     Authors._search_pubmed := fun name => Returned (_search_pubmed C name);
     _fetch_semantic_scholar_author_details :=
       _fetch_semantic_scholar_author_details P;
     _fetch_openalex_author_details := _fetch_openalex_author_details P;
     _fetch_orcid_author_record := _fetch_orcid_author_record P |}.

End Enrichment.

(** ** The endpoints *)

Module Router.

Import PyStr.

(** The request model of the POST endpoint. *)
Record AuthorSearchRequest := mk_request {
  name : string;
  institution : option string;
  field_of_study : option string;
  email : option string
}.

(** What an endpoint does: it returns the profile or raises
    [HTTPException(status_code, detail)]. *)
Inductive response :=
| Returns (author_data : Authors.author_dict)
| HTTPException (status_code : Z) (detail : string).

(** [author_data.paper_count == 0 and not author_data.citation_count and
    not author_data.orcid] *)
Definition not_found (author_data : Authors.author_dict) : bool :=
  match Authors.paper_count author_data with
  | Some n => (n =? 0)%Z
  | None => false
  end
  && negb (Authors.int_truthy (Authors.citation_count author_data))
  && negb (Authors.str_truthy (Authors.orcid author_data)).

(** POST [/search]: an [HTTPException] raised in the body is raised again,
    any other exception becomes status 500. *)
Definition search_author (P : Authors.providers) (now : string)
    (request : AuthorSearchRequest) : response :=
  match Authors.search_author P now (name request) with
  | Authors.Ok author_data =>
      if not_found author_data
      then HTTPException 404
             ("No author information found for '" ++ name request ++ "'")
      else Returns author_data
  | Authors.Raise _ => HTTPException 500 "Internal server error"
  end.

(** GET [/search/{name}] *)
Definition search_author_by_name (P : Authors.providers) (now : string)
    (name : string) (institution field_of_study email : option string)
  : response :=
  match Authors.search_author P now name with
  | Authors.Ok author_data =>
      if not_found author_data
      then HTTPException 404
             ("No author information found for '" ++ name ++ "'")
      else Returns author_data
  | Authors.Raise _ => HTTPException 500 "Internal server error"
  end.

End Router.

(** ** The stages of a resolution *)

Module Stages.

Import PyStr Authors Spec.

(** The primary merge of the fan-out. *)
Definition primary (P : providers) (now name : string) : author_dict :=
  _merge_author_data now name (fan_out P name).

(** The detail lookup by a numeric identifier. *)
Definition enrich_by_numeric_id (P : providers) (now name : string)
    (m : author_dict) : author_dict :=
  match author_id m with
  | Some i =>
      if isdigit i
      then merge_details now name m (_fetch_semantic_scholar_author_details P i)
      else m
  | None => m
  end.

(** The identifier the OpenAlex lookup is made with, if [aid] has the shape
    of one. *)
Definition openalex_id_of (aid : string) : option string :=
  if contains "openalex.org" aid
     || (startswith "A" aid && isdigit (tail aid))
  then Some (if contains "/" aid then last_segment slash aid else aid)
  else None.

Definition enrich_by_registry_id (P : providers) (now name : string)
    (m : author_dict) : author_dict :=
  match openalex_id_of (or_empty (author_id m)) with
  | Some i =>
      if truthy i
      then merge_details now name m (_fetch_openalex_author_details P i)
      else m
  | None => m
  end.

Definition enrich_by_identity_record (P : providers) (now name : string)
    (m : author_dict) : author_dict :=
  match orcid m with
  | Some o =>
      if truthy o
      then merge_details now name m
             (_fetch_orcid_author_record P (last_segment slash o))
      else m
  | None => m
  end.

(** The keys of a profile that "first wins" and "maximum wins" protect. *)
Definition kept (f : author_dict -> option string) (m r : author_dict)
  : Prop :=
  str_truthy (f m) = true -> f r = f m.

Definition not_lowered (f : author_dict -> option Z) (m r : author_dict)
  : Prop :=
  forall n, f m = Some n -> exists n', f r = Some n' /\ (n <= n')%Z.

(** The identifiers of a profile are in normal form. *)
Definition normal_ids (p : author_dict) : Prop :=
  (forall a, author_id p = Some a -> contains "openalex.org/" a = false)
  /\ (forall o, orcid p = Some o -> contains "/" o = false).

(** What every stage keeps: the name of the query and the identifier of
    the primary merge. *)
Definition settled (target a : string) (m : author_dict) : Prop :=
  Authors.name m = Some target /\ author_id m = Some a.

(** The providers [P] with another Semantic Scholar detail lookup, and with
    another OpenAlex detail lookup. *)
Definition with_s2_details (f : string -> option author_dict)
    (P : providers) : providers :=
  {| _fetch_semantic_scholar_author_profile :=
       _fetch_semantic_scholar_author_profile P;
     _fetch_openalex_author_profile := _fetch_openalex_author_profile P;
     _fetch_dblp_author_profile := _fetch_dblp_author_profile P;
     _search_semantic_scholar := _search_semantic_scholar P;
     _search_openalex := _search_openalex P;
     _search_dblp := _search_dblp P;
     _search_europepmc := _search_europepmc P;
     _search_pubmed := _search_pubmed P;
     _fetch_semantic_scholar_author_details := f;
     _fetch_openalex_author_details := _fetch_openalex_author_details P;
     _fetch_orcid_author_record := _fetch_orcid_author_record P |}.

Definition with_openalex_details (f : string -> option author_dict)
    (P : providers) : providers :=
  {| _fetch_semantic_scholar_author_profile :=
       _fetch_semantic_scholar_author_profile P;
     _fetch_openalex_author_profile := _fetch_openalex_author_profile P;
     _fetch_dblp_author_profile := _fetch_dblp_author_profile P;
     _search_semantic_scholar := _search_semantic_scholar P;
     _search_openalex := _search_openalex P;
     _search_dblp := _search_dblp P;
     _search_europepmc := _search_europepmc P;
     _search_pubmed := _search_pubmed P;
     _fetch_semantic_scholar_author_details :=
       _fetch_semantic_scholar_author_details P;
     _fetch_openalex_author_details := f;
     _fetch_orcid_author_record := _fetch_orcid_author_record P |}.

(** A detail record that reports a thousand papers. *)
Definition thousand_papers : author_dict := papers "openalex" 1000.

(** The providers of the two-source scenario with a DBLP-style profile
    only: an identifier and no count. *)
Definition pid_only_providers : providers :=
  {| _fetch_semantic_scholar_author_profile := fun _ => Returned empty_dict;
     _fetch_openalex_author_profile := fun _ => Returned empty_dict;
     _fetch_dblp_author_profile := fun _ =>
       Returned {| name := Some "Ada Example"; author_id := Some "12/3456";
                   orcid := None; affiliations := []; homepage_url := None;
                   email := None; h_index := None; paper_count := None;
                   citation_count := None; fields_of_study := [];
                   profile_image_url := None; last_updated := None;
                   sources := ["dblp"]; confidence_score := None |};
     _search_semantic_scholar := fun _ => Returned empty_dict;
     _search_openalex := fun _ => Returned empty_dict;
     _search_dblp := fun _ => Returned empty_dict;
     _search_europepmc := fun _ => Returned empty_dict;
     _search_pubmed := fun _ => Returned empty_dict;
     _fetch_semantic_scholar_author_details := fun _ => None;
     _fetch_openalex_author_details := fun _ => None;
     _fetch_orcid_author_record := fun _ => None |}.

(** The fields of study a paper entry lists, and the citation count it
    reports (an absent key counts as 0). *)
Definition paper_fields (p : option Enrichment.paper) : list string :=
  match p with
  | Some q =>
      match Enrichment.fieldsOfStudy q with
      | Enrichment.Bound l => l
      | _ => []
      end
  | None => []
  end.

Definition paper_citations (p : option Enrichment.paper) : Z :=
  match p with
  | Some q =>
      match Enrichment.citationCount q with
      | Enrichment.Bound n => n
      | _ => 0%Z
      end
  | None => 0%Z
  end.

(** A paper entry that is [None], or whose key is bound to [None]. *)
Definition null_fields (p : option Enrichment.paper) : bool :=
  match p with
  | Some q =>
      match Enrichment.fieldsOfStudy q with
      | Enrichment.Null => true
      | _ => false
      end
  | None => true
  end.

Definition null_citations (p : option Enrichment.paper) : bool :=
  match p with
  | Some q =>
      match Enrichment.citationCount q with
      | Enrichment.Null => true
      | _ => false
      end
  | None => true
  end.

(** The five fallbacks: the function, the client it queries, its tag. *)
Definition fallbacks
  : list ((Enrichment.clients -> string -> author_dict)
          * (Enrichment.clients -> string -> Enrichment.answer)
          * string) :=
  [ (Enrichment._search_semantic_scholar, Enrichment.semantic_scholar,
     "semantic_scholar");
    (Enrichment._search_openalex, Enrichment.openalex, "openalex");
    (Enrichment._search_dblp, Enrichment.dblp, "dblp");
    (Enrichment._search_europepmc, Enrichment.europepmc, "europepmc");
    (Enrichment._search_pubmed, Enrichment.pubmed, "pubmed") ].

(** Sample papers and clients. *)
Definition paper_ai : Enrichment.paper :=
  {| Enrichment.fieldsOfStudy := Enrichment.Bound ["AI"; "Logic"];
     Enrichment.citationCount := Enrichment.Bound 7%Z |}.

Definition paper_plain : Enrichment.paper :=
  {| Enrichment.fieldsOfStudy := Enrichment.Absent;
     Enrichment.citationCount := Enrichment.Absent |}.

Definition paper_null : Enrichment.paper :=
  {| Enrichment.fieldsOfStudy := Enrichment.Null;
     Enrichment.citationCount := Enrichment.Null |}.

Definition clients_answering (a : Enrichment.answer) : Enrichment.clients :=
  {| Enrichment.semantic_scholar := fun _ => a;
     Enrichment.openalex := fun _ => a;
     Enrichment.dblp := fun _ => a;
     Enrichment.europepmc := fun _ => a;
     Enrichment.pubmed := fun _ => a |}.

(** Two records that name the same institution, the second also another. *)
Definition mit : affiliation :=
  {| institution_id := None; institution_name := Some "MIT";
     country := Some "US"; start_date := None; end_date := None |}.

Definition mit_since_2001 : affiliation :=
  {| institution_id := None; institution_name := Some "MIT";
     country := Some "US"; start_date := Some "2001-01-01";
     end_date := None |}.

Definition eth : affiliation :=
  {| institution_id := None; institution_name := Some "ETH";
     country := Some "CH"; start_date := None; end_date := None |}.

Definition affiliated (src : string) (affs : list affiliation) : author_dict :=
  {| name := None; author_id := None; orcid := None; affiliations := affs;
     homepage_url := None; email := None; h_index := None;
     paper_count := None; citation_count := None; fields_of_study := [];
     profile_image_url := None; last_updated := None; sources := [src];
     confidence_score := None |}.

(** Key [f] of [m] is an integer no smaller than [n]. *)
Definition at_least (f : author_dict -> option Z) (n : Z) (m : author_dict)
  : Prop :=
  exists n', f m = Some n' /\ (n <= n')%Z.

(** The candidate has a name the matcher can use. *)
Definition has_names (s2 openalex dblp : bool) (c : candidate) : bool :=
  is_cons (truthy_names (names_of s2 openalex dblp c)).

(** A candidate without any key. *)
Definition nameless : candidate :=
  {| cand_name := None; cand_aliases := []; cand_display_name := None;
     cand_display_name_alternatives := []; cand_author := None;
     cand_other := [] |}.

(** The affiliations that all partial records carry, in input order. *)
Definition all_affiliations (rs : list gathered) : list affiliation :=
  concat (map affiliations (dicts_of rs)).

End Stages.

(** ** The matching policy, in the words of its description *)

(** These notions are written on lists of characters with the list
    functions of the library, and use none of the definitions of [PyStr] or
    of the matcher: the theorems on [_pick_best_name_match] compare the code
    with them. *)

Module Matching.

Import Authors.

(** The provider shape the keyword flags select: [s2] before [openalex]
    before [dblp]. *)
Inductive shape :=
| S2
| OpenAlex
| DBLP
| Plain.

Definition shape_of (s2 openalex dblp : bool) : shape :=
  if s2 then S2
  else if openalex then OpenAlex
  else if dblp then DBLP
  else Plain.

Definition opt_list (v : option string) : list string :=
  match v with
  | Some s => [s]
  | None => []
  end.

Definition non_empty (l : list string) : list string :=
  List.filter (fun s => negb (String.eqb s EmptyString)) l.

(** The names a candidate exposes under a shape: its primary name and the
    alias list the shape offers, without the empty ones.  The DBLP shape
    has the author, or else the name. *)
Definition usable_names (sh : shape) (c : candidate) : list string :=
  non_empty
    match sh with
    | S2 => opt_list (cand_name c) ++ cand_aliases c
    | OpenAlex =>
        opt_list (cand_display_name c) ++ cand_display_name_alternatives c
    | DBLP =>
        match non_empty (opt_list (cand_author c)) with
        | [] => opt_list (cand_name c)
        | l => l
        end
    | Plain => opt_list (cand_name c)
    end%list.

(** Upper-case letters below 256, and their lower-case letters. *)
Definition upper_case (c : ascii) : bool :=
  let n := nat_of_ascii c in
  (Nat.leb 65 n && Nat.leb n 90)
  || (Nat.leb 192 n && Nat.leb n 222 && negb (Nat.eqb n 215)).

Definition to_lower (c : ascii) : ascii :=
  if upper_case c then ascii_of_nat (nat_of_ascii c + 32) else c.

(** White space below 256. *)
Definition whitespace (c : ascii) : bool :=
  existsb (Nat.eqb (nat_of_ascii c))
          [9; 10; 11; 12; 13; 28; 29; 30; 31; 32; 133; 160]%nat.

Definition period (c : ascii) : bool := Ascii.eqb c "."%char.

Fixpoint drop_while (p : ascii -> bool) (l : list ascii) : list ascii :=
  match l with
  | [] => []
  | c :: l' => if p c then drop_while p l' else l
  end.

(** Without the white space at both ends. *)
Definition trim (l : list ascii) : list ascii :=
  rev (drop_while whitespace (rev (drop_while whitespace l))).

(** The normal form of a name as the claim words it: lower-cased and
    without periods. *)
Definition claimed_form (s : string) : string :=
  string_of_list_ascii
    (List.filter (fun c => negb (period c))
                 (map to_lower (list_ascii_of_string s))).

(** The normal form of a name as the code has it: lower-cased, without
    periods, and then without the white space at both ends. *)
Definition normal_form (s : string) : string :=
  string_of_list_ascii
    (trim (List.filter (fun c => negb (period c))
                       (map to_lower (list_ascii_of_string s)))).

(** [a] occurs in [b]. *)
Definition within (a b : string) : Prop :=
  exists pre post, b = (pre ++ a ++ post)%string.

(** A candidate matches the target exactly: one of its names has the normal
    form of the target. *)
Definition exactly (sh : shape) (target : string) (c : candidate) : Prop :=
  exists n, In n (usable_names sh c) /\ normal_form n = normal_form target.

(** A candidate matches the target in part: the normal form of the target
    occurs in the normal form of one of its names, or the other way
    round. *)
Definition partly (sh : shape) (target : string) (c : candidate) : Prop :=
  exists n,
    In n (usable_names sh c)
    /\ (within (normal_form target) (normal_form n)
        \/ within (normal_form n) (normal_form target)).

(** The exact match of the claim: equal after lower-casing and removing
    periods. *)
Definition claimed_exact (sh : shape) (target : string) (c : candidate)
  : Prop :=
  exists n, In n (usable_names sh c) /\ claimed_form n = claimed_form target.

(** Sample candidates. *)
Definition john : candidate :=
  {| cand_name := Some "Dr. J. Smithson"; cand_aliases := ["John Smithson"];
     cand_display_name := None; cand_display_name_alternatives := [];
     cand_author := None; cand_other := ["authorId"] |}.

Definition jane : candidate :=
  {| cand_name := Some "Jane Smith"; cand_aliases := ["  J. SMITH "];
     cand_display_name := None; cand_display_name_alternatives := [];
     cand_author := None; cand_other := ["authorId"] |}.

Definition jay : candidate :=
  {| cand_name := Some "j smith"; cand_aliases := [];
     cand_display_name := None; cand_display_name_alternatives := [];
     cand_author := None; cand_other := ["authorId"] |}.

Definition ann_padded : candidate :=
  {| cand_name := Some " ann "; cand_aliases := [];
     cand_display_name := None; cand_display_name_alternatives := [];
     cand_author := None; cand_other := [] |}.

Definition ann : candidate :=
  {| cand_name := Some "ann"; cand_aliases := [];
     cand_display_name := None; cand_display_name_alternatives := [];
     cand_author := None; cand_other := [] |}.

End Matching.

(** * Properties *)

Import PyStr Authors Spec Stages Matching.

(** ** Strings *)

Section StringFacts.

Lemma prefix_empty (s : string) : String.prefix "" s = true.
Proof. by destruct s. Qed.

Lemma contains_of_prefix (sub s : string) :
  String.prefix sub s = true -> contains sub s = true.
Proof. intros H. destruct s; simpl in *; by rewrite H. Qed.

Lemma contains_cons (sub : string) (c : ascii) (s : string) :
  contains sub s = true -> contains sub (String c s) = true.
Proof. intros H. cbn [contains]. rewrite H. apply orb_true_r. Qed.

(** A string that starts with [a ++ b] holds [b]. *)
Lemma prefix_app_contains (a b s : string) :
  String.prefix (a ++ b) s = true -> contains b s = true.
Proof.
  revert s. induction a as [|c a IH]; intros s H.
  - by apply contains_of_prefix.
  - destruct s as [|c' s]; simpl in H; [done|].
    destruct (ascii_dec c c'); [|done].
    apply contains_cons, IH, H.
Qed.

(** A string that holds [a ++ b] holds [b]. *)
Lemma contains_app_r (a b s : string) :
  contains (a ++ b) s = true -> contains b s = true.
Proof.
  induction s as [|c s IH]; intros H; cbn [contains] in H.
  - rewrite orb_false_r in H. by apply (prefix_app_contains a b "").
  - apply orb_true_iff in H as [H|H].
    + by apply (prefix_app_contains a).
    + by apply contains_cons, IH.
Qed.

Lemma contains_char_cons (sep c : ascii) (s : string) :
  Ascii.eqb c sep = false ->
  contains (String sep "") s = false ->
  contains (String sep "") (String c s) = false.
Proof.
  intros Hc Hs. cbn [contains String.prefix]. rewrite Hs, orb_false_r.
  destruct (ascii_dec sep c) as [->|]; [|done].
  by rewrite Ascii.eqb_refl in Hc.
Qed.

(** No piece of [s.split(sep)] holds the separator. *)
Lemma split_pieces (sep : ascii) (s : string) :
  Forall (fun x => contains (String sep "") x = false) (split sep s).
Proof.
  induction s as [|c s IH]; cbn [split].
  - by repeat constructor.
  - destruct (Ascii.eqb c sep) eqn:Hc.
    + by constructor.
    + destruct (split sep s) as [|h t]; inversion IH; subst;
        repeat constructor; try done; by apply contains_char_cons.
Qed.

Lemma last_segment_clean (sep : ascii) (s : string) :
  contains (String sep "") (last_segment sep s) = false.
Proof.
  unfold last_segment.
  generalize (split_pieces sep s).
  generalize (split sep s) as l.
  induction l as [|x [|y l] IH]; intros H; cbn [List.last].
  - done.
  - by inversion H.
  - apply IH. by inversion H.
Qed.

Lemma last_segment_no_slash (s : string) :
  contains "/" (last_segment slash s) = false.
Proof. exact (last_segment_clean slash s). Qed.

(** The trailing segment of a path is no "openalex.org/" URL. *)
Lemma last_segment_not_openalex (s : string) :
  contains "openalex.org/" (last_segment slash s) = false.
Proof.
  destruct (contains "openalex.org/" (last_segment slash s)) eqn:H; [|done].
  apply (contains_app_r "openalex.org" "/") in H.
  pose proof (last_segment_clean slash s) as H'.
  change (String slash "") with "/" in H'. congruence.
Qed.

End StringFacts.

(** ** [_normalize_identifiers] *)

(** C6: the normaliser is idempotent: applying it to its own output changes
    nothing. *)
Theorem normalize_identifiers_idempotent (p : author_dict) :
  _normalize_identifiers (_normalize_identifiers p) = _normalize_identifiers p.
Proof.
  destruct p as [nm aid oid affs hp em h pc cc fos img lu srcs cs].
  unfold _normalize_identifiers, with_author_id, with_orcid; simpl.
  destruct aid as [aid|]; [destruct (contains "openalex.org/" aid) eqn:Ha|];
    (destruct oid as [oid|]; [destruct (contains "/" oid) eqn:Ho|]);
    repeat (progress (simpl; rewrite ?Ha, ?Ho, ?last_segment_not_openalex,
                        ?last_segment_no_slash));
    reflexivity.
Qed.

(** C9: the normaliser writes [author_id] and [orcid] only: every other key
    of its output is the key of its input. *)
Theorem normalize_identifiers_frame (p : author_dict) :
  let q := _normalize_identifiers p in
  name q = name p /\
  affiliations q = affiliations p /\
  homepage_url q = homepage_url p /\
  email q = email p /\
  h_index q = h_index p /\
  paper_count q = paper_count p /\
  citation_count q = citation_count p /\
  fields_of_study q = fields_of_study p /\
  profile_image_url q = profile_image_url p /\
  last_updated q = last_updated p /\
  sources q = sources p /\
  confidence_score q = confidence_score p.
Proof.
  unfold _normalize_identifiers; cbn.
  destruct (author_id p) as [aid|];
    [destruct (contains "openalex.org/" aid)|];
    cbn; (destruct (orcid p) as [oid|]; [destruct (contains "/" oid)|]);
    cbn; repeat split; reflexivity.
Qed.

(** ** The merge loop *)

Section MergeLoop.

(** A dictionary that is false holds no key at all. *)
Lemma dict_falsy_empty (d : author_dict) :
  dict_truthy d = false -> d = empty_dict.
Proof.
  destruct d as [nm aid oid affs hp em h pc cc fos img lu srcs cs].
  unfold dict_truthy; simpl.
  destruct nm, aid, oid, affs, hp, em, h, pc, cc, fos, img, lu, srcs, cs;
    simpl; intros H; try discriminate H; reflexivity.
Qed.

(** The loop body does nothing on a dictionary without keys, so dropping
    such dictionaries from [valid_results] does not change the merge. *)
Lemma merge_step_empty (st : merge_state) : merge_step st empty_dict = st.
Proof.
  destruct st. unfold merge_step, keep_first; simpl.
  rewrite app_nil_r, !andb_false_r. reflexivity.
Qed.

(** Skipping the dictionaries that are false loses no value of a key. *)
Lemma omap_valid_results {A} (f : author_dict -> option A)
    (results : list gathered) :
  f empty_dict = None ->
  omap f (valid_results results) = omap f (dicts_of results).
Proof.
  intros Hf. unfold valid_results, dicts_of.
  induction results as [|[e|d] rs IH]; cbn; [done..|].
  destruct (dict_truthy d) eqn:Hd; cbn; rewrite IH; [done|].
  apply dict_falsy_empty in Hd as ->. by rewrite Hf.
Qed.

Lemma first_truthy_valid_results (f : author_dict -> option string)
    (results : list gathered) :
  f empty_dict = None ->
  first_truthy f (valid_results results) = first_truthy f (dicts_of results).
Proof.
  intros Hf. unfold valid_results, dicts_of.
  induction results as [|[e|d] rs IH]; cbn; [done..|].
  destruct (dict_truthy d) eqn:Hd; cbn; rewrite IH; [done|].
  apply dict_falsy_empty in Hd as ->. by rewrite Hf.
Qed.

(** The collected counts are the values supplied, in input order. *)
Lemma fold_paper_counts (ds : list author_dict) (st : merge_state) :
  paper_counts (fold_left merge_step ds st)
  = (paper_counts st ++ omap paper_count ds)%list.
Proof.
  revert st. induction ds as [|d ds IH]; intros st; simpl.
  - by rewrite app_nil_r.
  - rewrite IH. simpl. destruct (paper_count d); simpl;
      by rewrite <- ?app_assoc.
Qed.

Lemma fold_citation_counts (ds : list author_dict) (st : merge_state) :
  citation_counts (fold_left merge_step ds st)
  = (citation_counts st ++ omap citation_count ds)%list.
Proof.
  revert st. induction ds as [|d ds IH]; intros st; simpl.
  - by rewrite app_nil_r.
  - rewrite IH. simpl. destruct (citation_count d); simpl;
      by rewrite <- ?app_assoc.
Qed.

Lemma fold_h_indices (ds : list author_dict) (st : merge_state) :
  h_indices (fold_left merge_step ds st)
  = (h_indices st ++ omap h_index ds)%list.
Proof.
  revert st. induction ds as [|d ds IH]; intros st; simpl.
  - by rewrite app_nil_r.
  - rewrite IH. simpl. destruct (h_index d); simpl;
      by rewrite <- ?app_assoc.
Qed.

Lemma fold_affiliations (ds : list author_dict) (st : merge_state) :
  m_affiliations (fold_left merge_step ds st)
  = (m_affiliations st ++ concat (map affiliations ds))%list.
Proof.
  revert st. induction ds as [|d ds IH]; intros st; simpl.
  - by rewrite app_nil_r.
  - rewrite IH. simpl. destruct (affiliations d); simpl.
    + done.
    + by rewrite <- app_assoc.
Qed.

Lemma first_truthy_is_truthy f ds :
  first_truthy f ds = None \/ str_truthy (first_truthy f ds) = true.
Proof.
  induction ds as [|d ds IH]; simpl; [by left|].
  destruct (str_truthy (f d)) eqn:H; [by right|done].
Qed.

Lemma keep_first_fold (f : author_dict -> option string)
    (g : merge_state -> option string) :
  (forall st d, g (merge_step st d) = keep_first (g st) (f d)) ->
  forall ds st, g (fold_left merge_step ds st) = first_wins (g st) f ds.
Proof.
  intros Hstep. induction ds as [|d ds IH]; intros st; simpl.
  - unfold first_wins; simpl. by destruct (str_truthy (g st)).
  - rewrite IH, Hstep. unfold first_wins, keep_first; simpl.
    destruct (str_truthy (g st)) eqn:Hc; simpl.
    + by rewrite Hc.
    + destruct (str_truthy (f d)) eqn:Hn; simpl.
      * rewrite Hn. by destruct (f d).
      * by rewrite Hc.
Qed.

End MergeLoop.

(** ** Maxima *)

Section Maxima.

Local Open Scope Z_scope.

Lemma fold_max_spec (xs : list Z) (x : Z) :
  x <= fold_left Z.max xs x
  /\ (forall v, In v xs -> v <= fold_left Z.max xs x)
  /\ (fold_left Z.max xs x = x \/ In (fold_left Z.max xs x) xs).
Proof.
  revert x. induction xs as [|y xs IH]; intros x; simpl.
  - repeat split; [lia | tauto | by left].
  - destruct (IH (Z.max x y)) as (Hle & Hall & Hin).
    split; [lia|]. split.
    + intros v [<-|Hv]; [lia | by apply Hall].
    + destruct Hin as [Heq|Hin]; [|right; by right].
      rewrite Heq. destruct (Z.max_spec x y) as [[_ ->]|[_ ->]]; tauto.
Qed.

Lemma max_of_is_maximum (xs : list Z) (m : Z) :
  max_of xs = Some m -> is_maximum m xs.
Proof.
  destruct xs as [|x xs]; simpl; [done|]. intros [= <-].
  destruct (fold_max_spec xs x) as (Hle & Hall & Hin).
  split; simpl.
  - destruct Hin as [->|Hin]; tauto.
  - intros v [<-|Hv]; [done | by apply Hall].
Qed.

Lemma max_of_nonempty (xs : list Z) :
  xs <> [] -> exists m, max_of xs = Some m.
Proof. destruct xs; [done|]. simpl. eauto. Qed.

Lemma is_maximum_unique (m m' : Z) (xs : list Z) :
  is_maximum m xs -> is_maximum m' xs -> m = m'.
Proof.
  intros [Hin Hge] [Hin' Hge'].
  apply Hge in Hin'. apply Hge' in Hin. lia.
Qed.

Lemma is_maximum_perm (m : Z) (xs ys : list Z) :
  Permutation xs ys -> is_maximum m xs -> is_maximum m ys.
Proof.
  intros Hp [Hin Hge]. split.
  - by apply (Permutation_in _ Hp).
  - intros v Hv. apply Hge. by apply (Permutation_in _ (Permutation_sym Hp)).
Qed.

(** [max] does not depend on the order of the list. *)
Lemma max_of_perm (xs ys : list Z) :
  Permutation xs ys -> max_of xs = max_of ys.
Proof.
  intros Hp.
  destruct xs as [|x xs].
  - by apply Permutation_nil in Hp as ->.
  - destruct ys as [|y ys]; [by apply Permutation_sym, Permutation_nil in Hp|].
    destruct (max_of_nonempty (x :: xs)) as [m Hm]; [done|].
    destruct (max_of_nonempty (y :: ys)) as [m' Hm']; [done|].
    rewrite Hm, Hm'. f_equal.
    apply (is_maximum_unique m m' (y :: ys)).
    + apply (is_maximum_perm m (x :: xs)); [done|]. by apply max_of_is_maximum.
    + by apply max_of_is_maximum.
Qed.

Lemma supplied_perm (f : author_dict -> option Z) (rs rs' : list gathered) :
  Permutation rs rs' -> Permutation (supplied f rs) (supplied f rs').
Proof.
  intros Hp. unfold supplied, dicts_of. by rewrite Hp.
Qed.

Lemma supplied_returned (f : author_dict -> option Z) (d : author_dict)
    (rs : list gathered) :
  supplied f (Returned d :: rs)
  = match f d with
    | Some v => v :: supplied f rs
    | None => supplied f rs
    end.
Proof. reflexivity. Qed.

(** The three numeric keys of the merged profile, from the values the
    records supply. *)
Lemma merge_paper_count now name rs :
  paper_count (_merge_author_data now name rs)
  = Some (default 0 (max_of (supplied paper_count rs))).
Proof.
  unfold _merge_author_data, supplied; simpl.
  by rewrite fold_paper_counts, omap_valid_results.
Qed.

Lemma merge_citation_count now name rs :
  citation_count (_merge_author_data now name rs)
  = Some (default 0 (max_of (supplied citation_count rs))).
Proof.
  unfold _merge_author_data, supplied; simpl.
  by rewrite fold_citation_counts, omap_valid_results.
Qed.

Lemma merge_h_index now name rs :
  h_index (_merge_author_data now name rs)
  = max_of (supplied h_index rs).
Proof.
  unfold _merge_author_data, supplied; simpl.
  by rewrite fold_h_indices, omap_valid_results.
Qed.

End Maxima.

(** ** [_merge_author_data]: numeric keys *)

(** C4: each of [paper_count], [citation_count] and [h_index] of the merged
    profile is the maximum of the integers the partial records supply for
    it (one of them, and at least each of them), and none of the three
    depends on the order of the records. *)
Theorem merge_counts_are_maxima (now name : string) (rs rs' : list gathered) :
  (supplied paper_count rs <> [] ->
   exists m, paper_count (_merge_author_data now name rs) = Some m
             /\ is_maximum m (supplied paper_count rs)) /\
  (supplied citation_count rs <> [] ->
   exists m, citation_count (_merge_author_data now name rs) = Some m
             /\ is_maximum m (supplied citation_count rs)) /\
  (supplied h_index rs <> [] ->
   exists m, h_index (_merge_author_data now name rs) = Some m
             /\ is_maximum m (supplied h_index rs)) /\
  (Permutation rs rs' ->
   paper_count (_merge_author_data now name rs')
   = paper_count (_merge_author_data now name rs)
   /\ citation_count (_merge_author_data now name rs')
      = citation_count (_merge_author_data now name rs)
   /\ h_index (_merge_author_data now name rs')
      = h_index (_merge_author_data now name rs)).
Proof.
  rewrite !merge_paper_count, !merge_citation_count, !merge_h_index.
  repeat split.
  - intros H. destruct (max_of_nonempty _ H) as [m Hm].
    exists m. rewrite Hm. split; [done | by apply max_of_is_maximum].
  - intros H. destruct (max_of_nonempty _ H) as [m Hm].
    exists m. rewrite Hm. split; [done | by apply max_of_is_maximum].
  - intros H. destruct (max_of_nonempty _ H) as [m Hm].
    exists m. split; [done | by apply max_of_is_maximum].
  - by rewrite (max_of_perm _ _ (supplied_perm paper_count _ _ H)).
  - by rewrite (max_of_perm _ _ (supplied_perm citation_count _ _ H)).
  - by rewrite (max_of_perm _ _ (supplied_perm h_index _ _ H)).
Qed.

Lemma merge_counts_are_maxima_witness :
  (exists m,
     paper_count (_merge_author_data "2025-01-01T00:00:00" "Ada Example"
                    [Returned (papers "openalex" 10);
                     Returned (papers "dblp" 15)]) = Some m
     /\ is_maximum m (supplied paper_count
                        [Returned (papers "openalex" 10);
                         Returned (papers "dblp" 15)])) /\
  paper_count (_merge_author_data "2025-01-01T00:00:00" "Ada Example"
                 [Returned (papers "dblp" 15);
                  Returned (papers "openalex" 10)])
  = paper_count (_merge_author_data "2025-01-01T00:00:00" "Ada Example"
                   [Returned (papers "openalex" 10);
                    Returned (papers "dblp" 15)]).
Proof.
  pose proof (merge_counts_are_maxima "2025-01-01T00:00:00" "Ada Example"
                [Returned (papers "openalex" 10); Returned (papers "dblp" 15)]
                [Returned (papers "dblp" 15); Returned (papers "openalex" 10)])
    as (Hmax & _ & _ & Hperm).
  split.
  - apply Hmax. vm_compute. discriminate.
  - apply Hperm. apply perm_swap.
Defined.

(** Two sources that see ten and fifteen papers merge to fifteen, not to
    twenty-five. *)
Example merge_takes_max_not_sum :
  paper_count (_merge_author_data "2025-01-01T00:00:00" "Ada Example"
                 [Returned (papers "openalex" 10);
                  Returned (papers "dblp" 15)]) = Some 15%Z.
Proof. vm_compute. reflexivity. Qed.

(** C10: when no partial record supplies an integer for a numeric key, the
    merged [paper_count] and [citation_count] are the integer 0 and the
    merged [h_index] is [None]; a record that reports zero leaves the two
    counts as they are and turns [h_index] into 0, so only for [h_index]
    does the profile tell "not reported" from "reported as zero". *)
Theorem merge_numeric_defaults (now name : string) (rs : list gathered) :
  (supplied paper_count rs = [] ->
   paper_count (_merge_author_data now name rs) = Some 0%Z
   /\ paper_count (_merge_author_data now name (Returned zero_counts :: rs))
      = Some 0%Z) /\
  (supplied citation_count rs = [] ->
   citation_count (_merge_author_data now name rs) = Some 0%Z
   /\ citation_count (_merge_author_data now name (Returned zero_counts :: rs))
      = Some 0%Z) /\
  (supplied h_index rs = [] ->
   h_index (_merge_author_data now name rs) = None
   /\ h_index (_merge_author_data now name (Returned zero_counts :: rs))
      = Some 0%Z).
Proof.
  rewrite !merge_paper_count, !merge_citation_count, !merge_h_index.
  rewrite !supplied_returned; cbn [zero_counts paper_count citation_count h_index].
  repeat split; rewrite H; reflexivity.
Qed.

Lemma merge_numeric_defaults_witness :
  (paper_count (_merge_author_data "2025-01-01T00:00:00" "Ada Example"
                  [Raised "TimeoutError"; Returned empty_dict]) = Some 0%Z
   /\ paper_count (_merge_author_data "2025-01-01T00:00:00" "Ada Example"
                     [Returned zero_counts; Raised "TimeoutError";
                      Returned empty_dict]) = Some 0%Z) /\
  (citation_count (_merge_author_data "2025-01-01T00:00:00" "Ada Example"
                     [Raised "TimeoutError"; Returned empty_dict]) = Some 0%Z
   /\ citation_count (_merge_author_data "2025-01-01T00:00:00" "Ada Example"
                        [Returned zero_counts; Raised "TimeoutError";
                         Returned empty_dict]) = Some 0%Z) /\
  (h_index (_merge_author_data "2025-01-01T00:00:00" "Ada Example"
              [Raised "TimeoutError"; Returned empty_dict]) = None
   /\ h_index (_merge_author_data "2025-01-01T00:00:00" "Ada Example"
                 [Returned zero_counts; Raised "TimeoutError";
                  Returned empty_dict]) = Some 0%Z).
Proof.
  pose proof (merge_numeric_defaults "2025-01-01T00:00:00" "Ada Example"
                [Raised "TimeoutError"; Returned empty_dict])
    as (Hp & Hc & Hh).
  split; [|split].
  - apply Hp. reflexivity.
  - apply Hc. reflexivity.
  - apply Hh. reflexivity.
Defined.

(** ** [_merge_author_data]: affiliations *)

Section Dedup.

(** The loop keeps [seen] equal to the keys of [dedup_affs], which stay
    pairwise distinct. *)
Lemma dedup_fold_NoDup (affs : list affiliation)
    (seen : gset (string * string * string)) (out : list affiliation) :
  NoDup (map aff_key out) ->
  (forall k, k ∈ seen <-> k ∈ map aff_key out) ->
  NoDup (map aff_key (fold_left dedup_step affs (seen, out)).2).
Proof.
  revert seen out. induction affs as [|a affs IH]; intros seen out Hnd Hseen.
  - done.
  - cbn [fold_left]. unfold dedup_step at 2. cbn [fst snd].
    destruct (decide (aff_key a ∈ seen)) as [Hin|Hnin].
    + by apply IH.
    + apply IH.
      * rewrite map_app. apply NoDup_app. split; [done|]. split.
        -- intros k Hk Hk'. apply list_elem_of_singleton in Hk' as ->.
           by apply Hnin, Hseen.
        -- apply NoDup_singleton.
      * intros k. rewrite map_app, elem_of_app, elem_of_union, Hseen.
        cbn. rewrite elem_of_singleton, list_elem_of_singleton. tauto.
Qed.

Lemma dedup_affiliations_NoDup (affs : list affiliation) :
  NoDup (map aff_key (dedup_affiliations affs)).
Proof.
  unfold dedup_affiliations. destruct affs as [|a affs].
  - constructor.
  - cbn [is_cons]. apply dedup_fold_NoDup; [constructor|].
    intros k. cbn. rewrite elem_of_empty, elem_of_nil. tauto.
Qed.

End Dedup.

(** C8: no two entries of the merged affiliation list have the same key
    (institution_id, institution_name, country), a missing value counting
    as the empty string. *)
Theorem merge_affiliations_distinct (now name : string) (rs : list gathered) :
  NoDup (map aff_key (affiliations (_merge_author_data now name rs))).
Proof. apply dedup_affiliations_NoDup. Qed.

(** ** [_merge_author_data]: identifiers and URLs *)

Lemma first_wins_none (f : author_dict -> option string) (ds : list author_dict) :
  first_wins None f ds = first_truthy f ds.
Proof. unfold first_wins; simpl. by destruct (first_truthy f ds). Qed.

(** C2, as the code has it: the merged [author_id], [orcid], [homepage_url]
    and [profile_image_url] are each the first value in input order that is
    true (not [None] and not the empty string), and the merged [email] is
    [None] whatever the partial records carry. *)
Theorem merge_first_truthy_wins (now name : string) (rs : list gathered) :
  author_id (_merge_author_data now name rs)
  = first_truthy author_id (dicts_of rs) /\
  orcid (_merge_author_data now name rs)
  = first_truthy orcid (dicts_of rs) /\
  homepage_url (_merge_author_data now name rs)
  = first_truthy homepage_url (dicts_of rs) /\
  profile_image_url (_merge_author_data now name rs)
  = first_truthy profile_image_url (dicts_of rs) /\
  email (_merge_author_data now name rs) = None.
Proof.
  unfold _merge_author_data; cbn [author_id orcid homepage_url
                                   profile_image_url email].
  rewrite (keep_first_fold author_id m_author_id) by done.
  rewrite (keep_first_fold orcid m_orcid) by done.
  rewrite (keep_first_fold homepage_url m_homepage_url) by done.
  rewrite (keep_first_fold profile_image_url m_profile_image_url) by done.
  cbn [init_state m_author_id m_orcid m_homepage_url m_profile_image_url].
  rewrite !first_wins_none, !first_truthy_valid_results by done.
  done.
Qed.

(** C2 fails for [email]: a record that carries an address merges to a
    profile without one. *)
Lemma merge_email_not_first_non_null :
  email (_merge_author_data "2025-01-01T00:00:00" "Ada Example"
           [Returned with_email])
  <> first_non_null email (dicts_of [Returned with_email]).
Proof. vm_compute. discriminate. Qed.

(** ** The confidence score *)

Section Score.

Local Open Scope float_scope.

Lemma float_neq (a b : float) :
  PrimFloat.eqb a b = false -> PrimFloat.eqb a a = true -> a <> b.
Proof. intros Hab Haa ->. congruence. Qed.

(** The number of profile sources that counts is 0, 1 or 2. *)
Lemma capped_cases (n : nat) :
  let k := Z.min (Z.of_nat n) 2 in k = 0%Z \/ k = 1%Z \/ k = 2%Z.
Proof. simpl. lia. Qed.

(** The score is in [0, 1] for every value of its five inputs. *)
Lemma confidence_range (srcs : list string) (pc cc : option Z)
    (oid : option string) (h : option Z) :
  (0 <=? confidence srcs pc cc oid h) = true
  /\ (confidence srcs pc cc oid h <=? 1) = true.
Proof.
  unfold confidence, raw_score.
  destruct (capped_cases (size (list_to_set
             (filter (fun s => s ∈ authoritative) srcs) : gset string)))
    as [-> | [-> | ->]];
    destruct (int_truthy pc), (int_truthy cc), (str_truthy oid),
             (int_truthy h);
    vm_compute; split; reflexivity.
Qed.

(** Without a profile source and without a true key the score is 0.0. *)
Lemma confidence_nothing (srcs : list string) (pc cc h : option Z)
    (oid : option string) :
  filter (fun s => s ∈ authoritative) srcs = [] ->
  int_truthy pc = false -> int_truthy cc = false ->
  str_truthy oid = false -> int_truthy h = false ->
  confidence srcs pc cc oid h = 0.
Proof.
  intros Hs Hpc Hcc Ho Hh. unfold confidence, raw_score.
  rewrite Hs, Hpc, Hcc, Ho, Hh. vm_compute. reflexivity.
Qed.

End Score.

(** C7: the confidence score of a merged profile lies in [0, 1], and it is
    exactly 0.0 when the profile has no authoritative source, zero
    [paper_count], zero [citation_count], no [orcid] and no [h_index]. *)
Theorem confidence_score_in_unit_interval (now name : string)
    (rs : list gathered) :
  exists s : float,
    confidence_score (_merge_author_data now name rs) = Some s
    /\ (0 <=? s)%float = true
    /\ (s <=? 1)%float = true
    /\ (filter (fun t => t ∈ authoritative)
               (sources (_merge_author_data now name rs)) = [] ->
        paper_count (_merge_author_data now name rs) = Some 0%Z ->
        citation_count (_merge_author_data now name rs) = Some 0%Z ->
        orcid (_merge_author_data now name rs) = None ->
        h_index (_merge_author_data now name rs) = None ->
        s = 0%float).
Proof.
  eexists. split; [reflexivity|].
  split; [apply confidence_range|]. split; [apply confidence_range|].
  cbn [sources paper_count citation_count orcid h_index _merge_author_data].
  intros Hs Hpc Hcc Ho Hh.
  apply confidence_nothing; rewrite ?Hpc, ?Hcc, ?Ho, ?Hh; done.
Qed.

Lemma confidence_score_in_unit_interval_witness :
  confidence_score (_merge_author_data "2025-01-01T00:00:00" "Ada Example"
                      [Raised "TimeoutError"; Returned empty_dict])
  = Some 0%float.
Proof.
  destruct (confidence_score_in_unit_interval "2025-01-01T00:00:00"
              "Ada Example" [Raised "TimeoutError"; Returned empty_dict])
    as (s & Hs & _ & _ & Hzero).
  rewrite Hs. f_equal. apply Hzero; reflexivity.
Defined.

(** C3, as the code has it: an [h_index] that is a non-zero integer adds
    0.1 to the score before clamping; an [h_index] of 0 adds nothing, as
    an absent one. *)
Theorem h_index_term (now name : string) (rs : list gathered) (h : Z) :
  h_index (_merge_author_data now name rs) = Some h ->
  confidence_score (_merge_author_data now name rs)
  = Some (PyFloat.round2
            (PyFloat.min
               (raw_score (sources (_merge_author_data now name rs))
                          (paper_count (_merge_author_data now name rs))
                          (citation_count (_merge_author_data now name rs))
                          (orcid (_merge_author_data now name rs))
                          (Some h))
               PyFloat.f1_0)) /\
  (h <> 0%Z ->
   raw_score (sources (_merge_author_data now name rs))
             (paper_count (_merge_author_data now name rs))
             (citation_count (_merge_author_data now name rs))
             (orcid (_merge_author_data now name rs))
             (Some h)
   = (raw_score (sources (_merge_author_data now name rs))
                (paper_count (_merge_author_data now name rs))
                (citation_count (_merge_author_data now name rs))
                (orcid (_merge_author_data now name rs))
                None
      + PyFloat.f0_1)%float) /\
  (h = 0%Z ->
   raw_score (sources (_merge_author_data now name rs))
             (paper_count (_merge_author_data now name rs))
             (citation_count (_merge_author_data now name rs))
             (orcid (_merge_author_data now name rs))
             (Some h)
   = raw_score (sources (_merge_author_data now name rs))
               (paper_count (_merge_author_data now name rs))
               (citation_count (_merge_author_data now name rs))
               (orcid (_merge_author_data now name rs))
               None).
Proof.
  intros Hh. split; [|split].
  - cbn [_merge_author_data confidence_score sources paper_count
         citation_count orcid h_index] in *.
    unfold confidence. by rewrite Hh.
  - intros Hne. unfold raw_score. cbn [int_truthy].
    by apply Z.eqb_neq in Hne as ->.
  - intros ->. reflexivity.
Qed.

Lemma h_index_term_witness :
  raw_score (sources (_merge_author_data "2025-01-01T00:00:00" "Ada Example"
                        [Returned (reports_h_index 5)]))
            (paper_count (_merge_author_data "2025-01-01T00:00:00"
                            "Ada Example" [Returned (reports_h_index 5)]))
            (citation_count (_merge_author_data "2025-01-01T00:00:00"
                               "Ada Example" [Returned (reports_h_index 5)]))
            (orcid (_merge_author_data "2025-01-01T00:00:00" "Ada Example"
                      [Returned (reports_h_index 5)]))
            (Some 5%Z)
  = (raw_score (sources (_merge_author_data "2025-01-01T00:00:00"
                           "Ada Example" [Returned (reports_h_index 5)]))
               (paper_count (_merge_author_data "2025-01-01T00:00:00"
                               "Ada Example" [Returned (reports_h_index 5)]))
               (citation_count (_merge_author_data "2025-01-01T00:00:00"
                                  "Ada Example" [Returned (reports_h_index 5)]))
               (orcid (_merge_author_data "2025-01-01T00:00:00" "Ada Example"
                         [Returned (reports_h_index 5)]))
               None
     + PyFloat.f0_1)%float.
Proof.
  destruct (h_index_term "2025-01-01T00:00:00" "Ada Example"
              [Returned (reports_h_index 5)] 5%Z) as (_ & Hadd & _).
  - reflexivity.
  - apply Hadd. discriminate.
Defined.

(** C3 fails at an [h_index] of 0: the key is present, and the score before
    clamping is not 0.1 above the score of the profile without it. *)
Lemma h_index_zero_adds_nothing :
  h_index merged_h_zero = Some 0%Z /\
  raw_score (sources merged_h_zero) (paper_count merged_h_zero)
            (citation_count merged_h_zero) (orcid merged_h_zero)
            (h_index merged_h_zero)
  <> (raw_score (sources merged_h_zero) (paper_count merged_h_zero)
                (citation_count merged_h_zero) (orcid merged_h_zero) None
      + PyFloat.f0_1)%float.
Proof.
  split; [reflexivity|].
  apply float_neq; vm_compute; reflexivity.
Qed.

(** ** [_pick_best_name_match] *)

Section NameMatcher.

Variables s2 openalex dblp : bool.
Variable t : string.

Let names (c : candidate) : list string :=
  truthy_names (names_of s2 openalex dblp c).

Lemma truthy_names_cons_inv (v : option string) (l : list string) :
  is_cons (truthy_names (v :: map Some l)) = true ->
  is_some v = true \/ is_cons l = true.
Proof. destruct v, l; simpl; auto. Qed.

(** A candidate with a usable name is a dictionary that holds a key. *)
Lemma named_candidate_truthy (c : candidate) :
  is_cons (names c) = true -> cand_truthy c = true.
Proof.
  unfold names, names_of, cand_truthy.
  destruct s2; [|destruct openalex; [|destruct dblp]].
  - intros [->| ->]%truthy_names_cons_inv;
      rewrite ?orb_true_r; reflexivity.
  - intros [->| ->]%truthy_names_cons_inv;
      rewrite ?orb_true_r; reflexivity.
  - unfold str_or. destruct (cand_author c) as [a|], (cand_name c) as [n|];
      simpl; try reflexivity; try (destruct a; simpl; discriminate);
      rewrite ?orb_true_r; try reflexivity; discriminate.
  - destruct (cand_name c); simpl; [reflexivity | discriminate].
Qed.

Lemma exact_match_names (c : candidate) :
  exact_match s2 openalex dblp t c = true -> is_cons (names c) = true.
Proof. unfold exact_match, names. by destruct (truthy_names _). Qed.

Lemma substring_match_names (c : candidate) :
  substring_match s2 openalex dblp t c = true -> is_cons (names c) = true.
Proof. unfold substring_match, names. by destruct (truthy_names _). Qed.

(** What the loop leaves in [best]: the first exact match of the rest of
    the list; without one, the [best] it started with when that is a
    non-empty dictionary, else the first substring match, else the [best]
    it started with. *)
Lemma pick_loop_spec (cs : list candidate) (best : option candidate) :
  pick_loop s2 openalex dblp t cs best
  = match List.find (exact_match s2 openalex dblp t) cs with
    | Some c => Some c
    | None =>
        if opt_cand_truthy best then best
        else match List.find (substring_match s2 openalex dblp t) cs with
             | Some c => Some c
             | None => best
             end
    end.
Proof.
  revert best. induction cs as [|c cs IH]; intros best.
  - simpl. by destruct (opt_cand_truthy best).
  - cbn [pick_loop List.find].
    fold (exact_match s2 openalex dblp t c).
    fold (substring_match s2 openalex dblp t c).
    destruct (is_cons (truthy_names (names_of s2 openalex dblp c))) eqn:Hn;
      cbn [negb].
    + destruct (exact_match s2 openalex dblp t c) eqn:He; [done|].
      destruct (opt_cand_truthy best) eqn:Hb; cbn [negb andb].
      * by rewrite IH, Hb.
      * destruct (substring_match s2 openalex dblp t c) eqn:Hs.
        -- rewrite IH. cbn [opt_cand_truthy].
           by rewrite (named_candidate_truthy c Hn).
        -- by rewrite IH, Hb.
    + assert (exact_match s2 openalex dblp t c = false) as ->.
      { destruct (exact_match s2 openalex dblp t c) eqn:He; [|done].
        apply exact_match_names in He. unfold names in He. congruence. }
      assert (substring_match s2 openalex dblp t c = false) as ->.
      { destruct (substring_match s2 openalex dblp t c) eqn:Hs; [|done].
        apply substring_match_names in Hs. unfold names in Hs. congruence. }
      apply IH.
Qed.

Lemma find_exact_truthy (cs : list candidate) (c : candidate) :
  List.find (exact_match s2 openalex dblp t) cs = Some c ->
  cand_truthy c = true.
Proof.
  intros [_ H]%find_some.
  by apply named_candidate_truthy, exact_match_names.
Qed.

Lemma find_substring_truthy (cs : list candidate) (c : candidate) :
  List.find (substring_match s2 openalex dblp t) cs = Some c ->
  cand_truthy c = true.
Proof.
  intros [_ H]%find_some.
  by apply named_candidate_truthy, substring_match_names.
Qed.

Lemma pick_spec_in (cs : list candidate) (c : candidate) :
  pick_spec s2 openalex dblp t cs = Some c -> In c cs.
Proof.
  unfold pick_spec.
  destruct (List.find (exact_match _ _ _ _) cs) eqn:He.
  - intros [= <-]. by apply find_some in He as [? _].
  - destruct (List.find (substring_match _ _ _ _) cs) eqn:Hs.
    + intros [= <-]. by apply find_some in Hs as [? _].
    + destruct cs; simpl; [done|]. intros [= <-]. by left.
Qed.

Lemma pick_spec_none (cs : list candidate) :
  pick_spec s2 openalex dblp t cs = None <-> cs = [].
Proof.
  split; [|by intros ->].
  unfold pick_spec.
  destruct (List.find (exact_match _ _ _ _) cs); [done|].
  destruct (List.find (substring_match _ _ _ _) cs); [done|].
  by destruct cs.
Qed.

End NameMatcher.

Lemma pick_best_is_pick_spec (target_name : string) (cs : list candidate)
    (s2 openalex dblp : bool) :
  _pick_best_name_match target_name cs s2 openalex dblp
  = pick_spec s2 openalex dblp (norm (Some target_name)) cs.
Proof.
  unfold _pick_best_name_match, pick_spec. rewrite pick_loop_spec.
  cbn [opt_cand_truthy].
  destruct (List.find (exact_match _ _ _ _) cs) eqn:He.
  - cbn [opt_cand_truthy]. by rewrite (find_exact_truthy _ _ _ _ _ _ He).
  - destruct (List.find (substring_match _ _ _ _) cs) eqn:Hs.
    + cbn [opt_cand_truthy]. by rewrite (find_substring_truthy _ _ _ _ _ _ Hs).
    + done.
Qed.

(** The example of the specification: the first candidate matches the
    target exactly after normalisation. *)
Example pick_best_jane :
  _pick_best_name_match "jane q public"
    [named "Jane Q. Public"; named "John Smith"] false false false
  = Some (named "Jane Q. Public").
Proof. vm_compute. reflexivity. Qed.

(** ** [search_author] *)

Section Orchestrator.

Variable P : providers.
Variables now target : string.

Lemma valid_results_no_contribution (rs : list gathered) :
  Forall no_contribution rs -> valid_results rs = [].
Proof.
  unfold valid_results.
  induction 1 as [|[e|d] rs Hr _ IH]; cbn; [done..|].
  simpl in Hr. by rewrite Hr.
Qed.

Lemma merge_without_records (rs : list gathered) :
  valid_results rs = [] ->
  _merge_author_data now target rs
  = {| name := Some target; author_id := None; orcid := None;
       affiliations := []; homepage_url := None; email := None;
       h_index := None; paper_count := Some 0%Z;
       citation_count := Some 0%Z; fields_of_study := [];
       profile_image_url := None; last_updated := Some now;
       sources := []; confidence_score := Some 0%float |}.
Proof.
  intros H. unfold _merge_author_data. rewrite H. vm_compute. reflexivity.
Qed.

(** The numeric-id test is made on the stored [author_id]: a primary
    merge that found no identifier ends the call with the exception. *)
Lemma search_author_without_author_id :
  author_id (_merge_author_data now target (fan_out P target)) = None ->
  search_author P now target
  = Raise (AttributeError "'NoneType' object has no attribute 'isdigit'").
Proof.
  intros H. unfold search_author.
  change ([_fetch_semantic_scholar_author_profile P target;
           _fetch_openalex_author_profile P target;
           _fetch_dblp_author_profile P target] ++
          [_search_semantic_scholar P target; _search_openalex P target;
           _search_dblp P target; _search_europepmc P target;
           _search_pubmed P target])%list
    with (fan_out P target).
  rewrite H. reflexivity.
Qed.

End Orchestrator.

(** C1 on the code: when every fan-out call fails or returns empty, the
    primary merge is the all-empty profile the claim describes (no sources,
    zero counts, score 0.0, no orcid), and [search_author] does not return
    it: the call raises [AttributeError] at the numeric-id test, before any
    enrichment and before the normaliser. *)
Theorem search_author_all_empty_raises (P : providers) (now name : string) :
  Forall no_contribution (fan_out P name) ->
  sources (_merge_author_data now name (fan_out P name)) = [] /\
  paper_count (_merge_author_data now name (fan_out P name)) = Some 0%Z /\
  citation_count (_merge_author_data now name (fan_out P name)) = Some 0%Z /\
  confidence_score (_merge_author_data now name (fan_out P name))
  = Some 0%float /\
  orcid (_merge_author_data now name (fan_out P name)) = None /\
  search_author P now name
  = Raise (AttributeError "'NoneType' object has no attribute 'isdigit'").
Proof.
  intros H%valid_results_no_contribution.
  repeat split; try (by rewrite (merge_without_records now name _ H)).
  apply search_author_without_author_id.
  by rewrite (merge_without_records now name _ H).
Qed.

Lemma search_author_ada_example_raises :
  search_author silent_providers "2025-01-01T00:00:00" "Ada Example"
  = Raise (AttributeError "'NoneType' object has no attribute 'isdigit'").
Proof.
  apply (search_author_all_empty_raises silent_providers
           "2025-01-01T00:00:00" "Ada Example").
  repeat constructor.
Defined.

(** ** Scenarios *)

(** With an identifier found by the primary merge the call returns: the
    identifier is kept, the ORCID URL is cut to the bare identifier, the
    paper count is the larger of the two, and both tags are sources. *)
Example search_author_two_sources :
  exists m,
    search_author two_source_providers "2025-01-01T00:00:00" "Ada Example"
    = Ok m
    /\ author_id m = Some "123"
    /\ orcid m = Some "0000-0001-2345-6789"
    /\ paper_count m = Some 15%Z
    /\ fields_of_study m = ["AI"]
    /\ Permutation (sources m) ["semantic_scholar"; "openalex"].
Proof.
  eexists. split; [vm_compute; reflexivity|]. cbn.
  repeat split. apply perm_swap.
Qed.

(** Two authoritative sources, non-zero counts, an ORCID and an h-index:
    0.6 + 0.2 + 0.2 + 0.1 + 0.1, clamped to 1.0. *)
Example confidence_full :
  confidence ["openalex"; "semantic_scholar"] (Some 12%Z) (Some 340%Z)
             (Some "0000-0001-2345-6789") (Some 7%Z) = 1%float.
Proof. vm_compute. reflexivity. Qed.

(** * Further properties *)

(** ** [_merge_author_data]: sources, fields of study, skipped answers *)

Section MergeSets.

Lemma concat_map_valid_results {A} (f : author_dict -> list A)
    (rs : list gathered) :
  f empty_dict = [] ->
  concat (map f (valid_results rs)) = concat (map f (dicts_of rs)).
Proof.
  intros Hf. unfold valid_results, dicts_of.
  induction rs as [|[e|d] rs IH]; cbn; [done..|].
  destruct (dict_truthy d) eqn:Hd; cbn; rewrite IH; [done|].
  apply dict_falsy_empty in Hd as ->. by rewrite Hf.
Qed.

Lemma in_concat_map {A} (f : author_dict -> list A) (ds : list author_dict)
    (x : A) :
  In x (concat (map f ds)) <-> exists d, In d ds /\ In x (f d).
Proof.
  rewrite in_concat. split.
  - intros (l & Hl & Hx). apply in_map_iff in Hl as (d & <- & Hd). eauto.
  - intros (d & Hd & Hx). exists (f d). split; [|done]. by apply in_map.
Qed.

Lemma fold_sources (ds : list author_dict) (st : merge_state) :
  m_sources (fold_left merge_step ds st)
  = (m_sources st ++ concat (map sources ds))%list.
Proof.
  revert st. induction ds as [|d ds IH]; intros st; simpl.
  - by rewrite app_nil_r.
  - rewrite IH. simpl. by rewrite <- app_assoc.
Qed.

Lemma fold_fields_of_study (ds : list author_dict) (st : merge_state) :
  m_fields_of_study (fold_left merge_step ds st)
  = m_fields_of_study st ∪ list_to_set (concat (map fields_of_study ds)).
Proof.
  revert st. induction ds as [|d ds IH]; intros st;
    cbn [fold_left map concat].
  - by rewrite list_to_set_nil, (right_id_L ∅ (∪)).
  - rewrite IH. cbn [merge_step m_fields_of_study].
    rewrite list_to_set_app_L.
    destruct (fields_of_study d) as [|x l]; cbn [is_cons].
    + by rewrite list_to_set_nil, (left_id_L ∅ (∪)).
    + by rewrite (assoc_L (∪)).
Qed.

Lemma merge_sources now name rs :
  sources (_merge_author_data now name rs)
  = elements (list_to_set (concat (map sources (dicts_of rs))) : gset string).
Proof.
  unfold _merge_author_data; cbn [sources].
  by rewrite fold_sources, concat_map_valid_results.
Qed.

Lemma merge_fields_of_study now name rs :
  fields_of_study (_merge_author_data now name rs)
  = elements (list_to_set (concat (map fields_of_study (dicts_of rs)))
              : gset string).
Proof.
  unfold _merge_author_data; cbn [fields_of_study].
  rewrite fold_fields_of_study, concat_map_valid_results by done.
  cbn [init_state m_fields_of_study]. by rewrite (left_id_L ∅ (∪)).
Qed.

Lemma in_elements_list_to_set (l : list string) (x : string) :
  In x (elements (list_to_set l : gset string)) <-> In x l.
Proof.
  by rewrite <- !list_elem_of_In, elem_of_elements, elem_of_list_to_set.
Qed.

Lemma valid_results_app (rs1 rs2 : list gathered) :
  valid_results (rs1 ++ rs2) = (valid_results rs1 ++ valid_results rs2)%list.
Proof. apply omap_app. Qed.

Lemma valid_results_skip (r : gathered) (rs : list gathered) :
  no_contribution r -> valid_results (r :: rs) = valid_results rs.
Proof.
  unfold valid_results. destruct r as [e|d]; cbn; [done|].
  by intros ->.
Qed.

End MergeSets.

(** X1: the tags of the merged profile are pairwise distinct, and a tag is
    among them exactly when some partial record lists it: a provider that
    answers twice is one source. *)
Theorem merge_sources_are_the_tags (now name : string) (rs : list gathered) :
  NoDup (sources (_merge_author_data now name rs)) /\
  forall s, In s (sources (_merge_author_data now name rs))
            <-> exists d, In d (dicts_of rs) /\ In s (sources d).
Proof.
  rewrite merge_sources. split.
  - apply NoDup_elements.
  - intros s. by rewrite in_elements_list_to_set, in_concat_map.
Qed.

(** X2: the merged fields of study are pairwise distinct, and a field is
    among them exactly when some partial record lists it. *)
Theorem merge_fields_are_the_union (now name : string) (rs : list gathered) :
  NoDup (fields_of_study (_merge_author_data now name rs)) /\
  forall s, In s (fields_of_study (_merge_author_data now name rs))
            <-> exists d, In d (dicts_of rs) /\ In s (fields_of_study d).
Proof.
  rewrite merge_fields_of_study. split.
  - apply NoDup_elements.
  - intros s. by rewrite in_elements_list_to_set, in_concat_map.
Qed.

(** X3: an answer that is an exception or an empty dictionary, wherever it
    stands in the list, leaves the merged profile as it is without it. *)
Theorem merge_skips_no_contribution (now name : string)
    (rs1 rs2 : list gathered) (r : gathered) :
  no_contribution r ->
  _merge_author_data now name (rs1 ++ r :: rs2)
  = _merge_author_data now name (rs1 ++ rs2).
Proof.
  intros Hr. unfold _merge_author_data.
  by rewrite !valid_results_app, (valid_results_skip r rs2 Hr).
Qed.

Lemma merge_skips_no_contribution_witness :
  _merge_author_data "2025-01-01T00:00:00" "Ada Example"
    ([Returned profile_record] ++ Raised "TimeoutError"
       :: [Returned fallback_record])
  = _merge_author_data "2025-01-01T00:00:00" "Ada Example"
      ([Returned profile_record] ++ [Returned fallback_record]).
Proof.
  apply (merge_skips_no_contribution "2025-01-01T00:00:00" "Ada Example"
           [Returned profile_record] [Returned fallback_record]
           (Raised "TimeoutError")).
  exact I.
Defined.

(** ** [_merge_author_data]: what the deduplication keeps *)

Section DedupKeeps.

Lemma dedup_seen_step (seen : gset (string * string * string))
    (out : list affiliation) (a : affiliation) :
  (forall k, k ∈ seen <-> k ∈ map aff_key out) ->
  forall k, k ∈ {[aff_key a]} ∪ seen <-> k ∈ map aff_key (out ++ [a]).
Proof.
  intros Hseen k. rewrite map_app, elem_of_app, elem_of_union, Hseen.
  cbn. rewrite elem_of_singleton, list_elem_of_singleton. tauto.
Qed.

(** The loop appends to [dedup_affs] a sublist of what it reads. *)
Lemma dedup_fold_kept (affs : list affiliation)
    (seen : gset (string * string * string)) (out : list affiliation) :
  exists kept,
    (fold_left dedup_step affs (seen, out)).2 = (out ++ kept)%list
    /\ sublist kept affs.
Proof.
  revert seen out. induction affs as [|a affs IH]; intros seen out.
  - exists []. split; [by rewrite app_nil_r | constructor].
  - cbn [fold_left]. unfold dedup_step at 2. cbn [fst snd].
    destruct (decide (aff_key a ∈ seen)).
    + destruct (IH seen out) as (kept & -> & Hsub).
      exists kept. split; [done | by constructor].
    + destruct (IH ({[aff_key a]} ∪ seen) (out ++ [a])%list)
        as (kept & -> & Hsub).
      exists (a :: kept). split; [by rewrite <- app_assoc | by constructor].
Qed.

(** Every key the loop reads or has seen is a key of its result. *)
Lemma dedup_fold_covers (affs : list affiliation)
    (seen : gset (string * string * string)) (out : list affiliation) :
  (forall k, k ∈ seen <-> k ∈ map aff_key out) ->
  forall k, k ∈ seen \/ k ∈ map aff_key affs ->
            k ∈ map aff_key (fold_left dedup_step affs (seen, out)).2.
Proof.
  revert seen out. induction affs as [|a affs IH]; intros seen out Hseen k Hk.
  - destruct Hk as [Hk|Hk]; [by apply Hseen | by apply elem_of_nil in Hk].
  - cbn [fold_left]. unfold dedup_step at 2. cbn [fst snd].
    cbn [map] in Hk. rewrite elem_of_cons in Hk.
    destruct (decide (aff_key a ∈ seen)) as [Hin|Hnin].
    + apply IH; [done|]. destruct Hk as [Hk|[->|Hk]]; auto.
    + apply IH; [by apply dedup_seen_step|].
      rewrite elem_of_union, elem_of_singleton. tauto.
Qed.

(** On keys that are new and pairwise distinct the loop keeps everything. *)
Lemma dedup_fold_all (affs : list affiliation)
    (seen : gset (string * string * string)) (out : list affiliation) :
  NoDup (map aff_key affs) ->
  (forall a, a ∈ affs -> aff_key a ∉ seen) ->
  (fold_left dedup_step affs (seen, out)).2 = (out ++ affs)%list.
Proof.
  revert seen out. induction affs as [|a affs IH]; intros seen out Hnd Hnew.
  - by rewrite app_nil_r.
  - cbn [fold_left]. unfold dedup_step at 2. cbn [fst snd].
    cbn [map] in Hnd. apply NoDup_cons in Hnd as [Ha Hnd].
    destruct (decide (aff_key a ∈ seen)) as [Hin|Hnin].
    + exfalso. apply (Hnew a); [by left | done].
    + rewrite IH; [by rewrite <- app_assoc | done |].
      intros b Hb. rewrite elem_of_union, elem_of_singleton.
      intros [Heq|Hs].
      * apply Ha. rewrite <- Heq. apply list_elem_of_fmap. eauto.
      * apply (Hnew b); [by right | done].
Qed.

Lemma dedup_affiliations_sublist (affs : list affiliation) :
  sublist (dedup_affiliations affs) affs.
Proof.
  unfold dedup_affiliations. destruct affs as [|a affs]; [constructor|].
  cbn [is_cons].
  by destruct (dedup_fold_kept (a :: affs) ∅ []) as (kept & -> & Hsub).
Qed.

Lemma dedup_affiliations_covers (affs : list affiliation) (a : affiliation) :
  In a affs -> In (aff_key a) (map aff_key (dedup_affiliations affs)).
Proof.
  intros Ha. apply list_elem_of_In.
  unfold dedup_affiliations. destruct affs as [|b affs]; [done|].
  cbn [is_cons]. apply dedup_fold_covers.
  - intros k. cbn. rewrite elem_of_empty, elem_of_nil. tauto.
  - right. apply list_elem_of_In. by apply in_map.
Qed.

Lemma dedup_affiliations_distinct_keys (affs : list affiliation) :
  NoDup (map aff_key affs) -> dedup_affiliations affs = affs.
Proof.
  intros Hnd. unfold dedup_affiliations. destruct affs as [|a affs]; [done|].
  cbn [is_cons]. rewrite dedup_fold_all; [done..|].
  intros b _. apply not_elem_of_empty.
Qed.

Lemma merge_affiliations now name rs :
  affiliations (_merge_author_data now name rs)
  = dedup_affiliations (all_affiliations rs).
Proof.
  unfold _merge_author_data, all_affiliations; cbn [affiliations].
  by rewrite fold_affiliations, concat_map_valid_results.
Qed.

End DedupKeeps.

(** X4: the merged affiliation list is a sublist of the affiliations of the
    partial records in input order (nothing is invented or reordered), and
    the key of every affiliation a record carries is the key of some merged
    entry (no institution is lost). *)
Theorem merge_affiliations_kept (now name : string) (rs : list gathered) :
  sublist (affiliations (_merge_author_data now name rs))
          (all_affiliations rs) /\
  forall a, In a (all_affiliations rs) ->
            In (aff_key a)
               (map aff_key (affiliations (_merge_author_data now name rs))).
Proof.
  rewrite merge_affiliations. split.
  - apply dedup_affiliations_sublist.
  - apply dedup_affiliations_covers.
Qed.

Lemma merge_affiliations_kept_witness :
  In (aff_key mit_since_2001)
     (map aff_key
        (affiliations
           (_merge_author_data "2025-01-01T00:00:00" "Ada Example"
              [Returned (affiliated "openalex" [mit]);
               Returned (affiliated "orcid" [mit_since_2001; eth])]))).
Proof.
  destruct (merge_affiliations_kept "2025-01-01T00:00:00" "Ada Example"
              [Returned (affiliated "openalex" [mit]);
               Returned (affiliated "orcid" [mit_since_2001; eth])])
    as [_ Hcov].
  apply Hcov. cbn. tauto.
Defined.

(** The later duplicate is dropped: the first entry of a key is the one
    that stays. *)
Example merge_affiliations_first_stays :
  affiliations
    (_merge_author_data "2025-01-01T00:00:00" "Ada Example"
       [Returned (affiliated "openalex" [mit]);
        Returned (affiliated "orcid" [mit_since_2001; eth])])
  = [mit; eth].
Proof. vm_compute. reflexivity. Qed.

(** ** [_merge_author_data]: merging a profile again *)

Section Remerge.

Variables now name : string.

Lemma max_of_collect (v : option Z) : max_of (collect [] v) = v.
Proof. by destruct v. Qed.

Lemma keep_first_settled (v : option string) :
  v = None \/ str_truthy v = true -> keep_first None v = v.
Proof. unfold keep_first. intros [->| ->]; reflexivity. Qed.

Lemma merge_author_id rs :
  author_id (_merge_author_data now name rs)
  = first_truthy author_id (dicts_of rs).
Proof.
  unfold _merge_author_data; cbn [author_id].
  rewrite (keep_first_fold author_id m_author_id) by done.
  cbn [init_state m_author_id].
  by rewrite first_wins_none, first_truthy_valid_results.
Qed.

Lemma merge_orcid rs :
  orcid (_merge_author_data now name rs) = first_truthy orcid (dicts_of rs).
Proof.
  unfold _merge_author_data; cbn [orcid].
  rewrite (keep_first_fold orcid m_orcid) by done.
  cbn [init_state m_orcid].
  by rewrite first_wins_none, first_truthy_valid_results.
Qed.

Lemma merge_homepage_url rs :
  homepage_url (_merge_author_data now name rs)
  = first_truthy homepage_url (dicts_of rs).
Proof.
  unfold _merge_author_data; cbn [homepage_url].
  rewrite (keep_first_fold homepage_url m_homepage_url) by done.
  cbn [init_state m_homepage_url].
  by rewrite first_wins_none, first_truthy_valid_results.
Qed.

Lemma merge_profile_image_url rs :
  profile_image_url (_merge_author_data now name rs)
  = first_truthy profile_image_url (dicts_of rs).
Proof.
  unfold _merge_author_data; cbn [profile_image_url].
  rewrite (keep_first_fold profile_image_url m_profile_image_url) by done.
  cbn [init_state m_profile_image_url].
  by rewrite first_wins_none, first_truthy_valid_results.
Qed.

(** A merged profile is a dictionary that holds keys. *)
Lemma merge_truthy rs : dict_truthy (_merge_author_data now name rs) = true.
Proof. reflexivity. Qed.

Lemma elements_remerged (l : list string) :
  elements (list_to_set (elements (list_to_set l : gset string))
            : gset string)
  = elements (list_to_set l : gset string).
Proof. by rewrite list_to_set_elements_L. Qed.

Lemma fields_remerged (S : gset string) :
  elements (if is_cons (elements S)
            then ∅ ∪ list_to_set (elements S) else ∅ : gset string)
  = elements S.
Proof.
  destruct (elements S) as [|x l] eqn:HS; cbn [is_cons].
  - apply elements_empty.
  - by rewrite <- HS, (left_id_L ∅ (∪)), list_to_set_elements_L.
Qed.

Lemma affiliations_remerged (affs : list affiliation) :
  dedup_affiliations
    (if is_cons (dedup_affiliations affs)
     then [] ++ dedup_affiliations affs else [])%list
  = dedup_affiliations affs.
Proof.
  assert ((if is_cons (dedup_affiliations affs)
           then [] ++ dedup_affiliations affs else [])%list
          = dedup_affiliations affs) as ->.
  { by destruct (dedup_affiliations affs). }
  apply dedup_affiliations_distinct_keys, dedup_affiliations_NoDup.
Qed.

End Remerge.

(** In the model, where a set lists its elements in one fixed order, the
    profile merged again is the same record. *)
Lemma remerge_same (now name : string) (rs : list gathered) :
  _merge_author_data now name [Returned (_merge_author_data now name rs)]
  = _merge_author_data now name rs.
Proof.
  unfold _merge_author_data at 1.
  change (valid_results [Returned (_merge_author_data now name rs)])
    with [_merge_author_data now name rs].
  cbn [fold_left merge_step init_state m_sources paper_counts
       citation_counts h_indices m_author_id m_orcid m_homepage_url
       m_profile_image_url m_affiliations m_fields_of_study app].
  rewrite !max_of_collect.
  rewrite !keep_first_settled.
  2-5: rewrite ?merge_author_id, ?merge_orcid, ?merge_homepage_url,
         ?merge_profile_image_url;
       apply first_truthy_is_truthy.
  unfold _merge_author_data.
  cbn [sources paper_count citation_count h_index author_id orcid
       homepage_url profile_image_url affiliations fields_of_study default].
  rewrite elements_remerged, fields_remerged, affiliations_remerged.
  reflexivity.
Qed.

(** X5: merging a merged profile on its own changes nothing (with the same
    clock reading): every key keeps its value, the sources and the fields
    of study keep their elements, and in particular the confidence score is
    the same. *)
Theorem merge_of_merged_profile (now name : string) (rs : list gathered) :
  Authors.name (_merge_author_data now name
                  [Returned (_merge_author_data now name rs)])
  = Authors.name (_merge_author_data now name rs) /\
  author_id (_merge_author_data now name
               [Returned (_merge_author_data now name rs)])
  = author_id (_merge_author_data now name rs) /\
  orcid (_merge_author_data now name
           [Returned (_merge_author_data now name rs)])
  = orcid (_merge_author_data now name rs) /\
  affiliations (_merge_author_data now name
                  [Returned (_merge_author_data now name rs)])
  = affiliations (_merge_author_data now name rs) /\
  homepage_url (_merge_author_data now name
                  [Returned (_merge_author_data now name rs)])
  = homepage_url (_merge_author_data now name rs) /\
  profile_image_url (_merge_author_data now name
                       [Returned (_merge_author_data now name rs)])
  = profile_image_url (_merge_author_data now name rs) /\
  h_index (_merge_author_data now name
             [Returned (_merge_author_data now name rs)])
  = h_index (_merge_author_data now name rs) /\
  paper_count (_merge_author_data now name
                 [Returned (_merge_author_data now name rs)])
  = paper_count (_merge_author_data now name rs) /\
  citation_count (_merge_author_data now name
                    [Returned (_merge_author_data now name rs)])
  = citation_count (_merge_author_data now name rs) /\
  confidence_score (_merge_author_data now name
                      [Returned (_merge_author_data now name rs)])
  = confidence_score (_merge_author_data now name rs) /\
  Permutation (sources (_merge_author_data now name
                          [Returned (_merge_author_data now name rs)]))
              (sources (_merge_author_data now name rs)) /\
  Permutation (fields_of_study (_merge_author_data now name
                                  [Returned (_merge_author_data now name rs)]))
              (fields_of_study (_merge_author_data now name rs)).
Proof. rewrite remerge_same. by repeat split. Qed.

(** ** Enrichment by a detail record *)

Section Details.

Variables now name : string.

Lemma merge_pair_kept (f : author_dict -> option string)
    (m d : author_dict) :
  (forall rs, f (_merge_author_data now name rs) = first_truthy f (dicts_of rs)) ->
  kept f m (_merge_author_data now name [Returned m; Returned d]).
Proof.
  intros Hf Hm. rewrite Hf. cbn. by rewrite Hm.
Qed.

Lemma max_of_cons_ge (n : Z) (xs : list Z) :
  exists n', max_of (n :: xs) = Some n' /\ (n <= n')%Z.
Proof.
  destruct (max_of_nonempty (n :: xs)) as [n' Hn']; [done|].
  exists n'. split; [done|].
  apply max_of_is_maximum in Hn' as [_ Hge]. apply Hge. by left.
Qed.

Lemma merge_pair_paper_count (m d : author_dict) :
  not_lowered paper_count m
    (_merge_author_data now name [Returned m; Returned d]).
Proof.
  intros n Hn. rewrite merge_paper_count, supplied_returned, Hn.
  destruct (max_of_cons_ge n (supplied paper_count [Returned d]))
    as (n' & -> & Hle). eauto.
Qed.

Lemma merge_pair_citation_count (m d : author_dict) :
  not_lowered citation_count m
    (_merge_author_data now name [Returned m; Returned d]).
Proof.
  intros n Hn. rewrite merge_citation_count, supplied_returned, Hn.
  destruct (max_of_cons_ge n (supplied citation_count [Returned d]))
    as (n' & -> & Hle). eauto.
Qed.

Lemma merge_pair_h_index (m d : author_dict) :
  not_lowered h_index m
    (_merge_author_data now name [Returned m; Returned d]).
Proof.
  intros n Hn. rewrite merge_h_index, supplied_returned, Hn.
  destruct (max_of_cons_ge n (supplied h_index [Returned d]))
    as (n' & -> & Hle). eauto.
Qed.

Lemma kept_refl f m : kept f m m.
Proof. by intros _. Qed.

Lemma not_lowered_refl f m : not_lowered f m m.
Proof. intros n Hn. exists n. split; [done | lia]. Qed.

(** A detail record never replaces an identifier the profile has. *)
Lemma merge_details_kept_author_id m details :
  kept author_id m (merge_details now name m details).
Proof.
  unfold merge_details. destruct details as [d|]; [|apply kept_refl].
  destruct (dict_truthy d); [|apply kept_refl].
  apply merge_pair_kept, merge_author_id.
Qed.

Lemma merge_details_kept_orcid m details :
  kept orcid m (merge_details now name m details).
Proof.
  unfold merge_details. destruct details as [d|]; [|apply kept_refl].
  destruct (dict_truthy d); [|apply kept_refl].
  apply merge_pair_kept, merge_orcid.
Qed.

Lemma merge_details_name m details :
  Authors.name m = Some name ->
  Authors.name (merge_details now name m details) = Some name.
Proof.
  intros Hm. unfold merge_details. destruct details as [d|]; [|done].
  by destruct (dict_truthy d).
Qed.

End Details.

(** X6: merging a detail record into a profile (the step every enrichment
    stage performs) never replaces a non-empty [author_id], [orcid],
    [homepage_url] or [profile_image_url] of the profile, and never lowers
    a [paper_count], [citation_count] or [h_index] the profile has. *)
Theorem merge_details_protects (now name : string) (m : author_dict)
    (details : option author_dict) :
  kept author_id m (merge_details now name m details) /\
  kept orcid m (merge_details now name m details) /\
  kept homepage_url m (merge_details now name m details) /\
  kept profile_image_url m (merge_details now name m details) /\
  not_lowered paper_count m (merge_details now name m details) /\
  not_lowered citation_count m (merge_details now name m details) /\
  not_lowered h_index m (merge_details now name m details).
Proof.
  unfold merge_details. destruct details as [d|];
    [destruct (dict_truthy d)|];
    repeat split;
    try apply kept_refl; try apply not_lowered_refl.
  - apply merge_pair_kept, merge_author_id.
  - apply merge_pair_kept, merge_orcid.
  - apply merge_pair_kept, merge_homepage_url.
  - apply merge_pair_kept, merge_profile_image_url.
  - apply merge_pair_paper_count.
  - apply merge_pair_citation_count.
  - apply merge_pair_h_index.
Qed.

Lemma merge_details_protects_witness :
  author_id (merge_details "2025-01-01T00:00:00" "Ada Example"
               profile_record (Some fallback_record))
  = author_id profile_record /\
  exists n',
    paper_count (merge_details "2025-01-01T00:00:00" "Ada Example"
                   profile_record (Some fallback_record)) = Some n'
    /\ (10 <= n')%Z.
Proof.
  destruct (merge_details_protects "2025-01-01T00:00:00" "Ada Example"
              profile_record (Some fallback_record))
    as (Hid & _ & _ & _ & Hpc & _).
  split.
  - apply Hid. reflexivity.
  - apply Hpc. reflexivity.
Defined.

(** ** [_normalize_identifiers]: normal forms *)

Section NormalForm.

Lemma normalize_author_id (p : author_dict) :
  author_id (_normalize_identifiers p)
  = match author_id p with
    | Some a =>
        Some (if contains "openalex.org/" a then last_segment slash a else a)
    | None => None
    end.
Proof.
  unfold _normalize_identifiers.
  destruct (author_id p) as [a|] eqn:Ha;
    [destruct (contains "openalex.org/" a)|];
    cbn; (destruct (orcid p) as [o|]; [destruct (contains "/" o)|]);
    cbn; rewrite ?Ha; reflexivity.
Qed.

Lemma normalize_orcid (p : author_dict) :
  orcid (_normalize_identifiers p)
  = match orcid p with
    | Some o => Some (if contains "/" o then last_segment slash o else o)
    | None => None
    end.
Proof.
  unfold _normalize_identifiers.
  destruct (author_id p) as [a|] eqn:Ha;
    [destruct (contains "openalex.org/" a)|];
    cbn; (destruct (orcid p) as [o|] eqn:Ho; [destruct (contains "/" o)|]);
    cbn; rewrite ?Ho; reflexivity.
Qed.

Lemma normalize_name (p : author_dict) :
  Authors.name (_normalize_identifiers p) = Authors.name p.
Proof.
  unfold _normalize_identifiers.
  destruct (author_id p) as [a|];
    [destruct (contains "openalex.org/" a)|];
    cbn; (destruct (orcid p) as [o|]; [destruct (contains "/" o)|]);
    reflexivity.
Qed.

Lemma normalize_normal_ids (p : author_dict) :
  normal_ids (_normalize_identifiers p).
Proof.
  split.
  - intros a. rewrite normalize_author_id.
    destruct (author_id p) as [a0|]; [|done]. intros [= <-].
    destruct (contains "openalex.org/" a0) eqn:H; [|done].
    apply last_segment_not_openalex.
  - intros o. rewrite normalize_orcid.
    destruct (orcid p) as [o0|]; [|done]. intros [= <-].
    destruct (contains "/" o0) eqn:H; [|done].
    apply last_segment_no_slash.
Qed.

Lemma normalize_fixed (p : author_dict) :
  normal_ids p -> _normalize_identifiers p = p.
Proof.
  intros [Ha Ho]. unfold _normalize_identifiers.
  destruct (author_id p) as [a|] eqn:Ea.
  - rewrite (Ha a eq_refl). destruct (orcid p) as [o|] eqn:Eo; [|done].
    by rewrite (Ho o eq_refl).
  - destruct (orcid p) as [o|] eqn:Eo; [|done]. by rewrite (Ho o eq_refl).
Qed.

End NormalForm.

(** X7: the output of the normaliser is in normal form (its [author_id]
    holds no ["openalex.org/"], its [orcid] holds no ["/"]), and the
    profiles the normaliser leaves unchanged are exactly those in normal
    form. *)
Theorem normalize_identifiers_normal_form (p : author_dict) :
  normal_ids (_normalize_identifiers p) /\
  (_normalize_identifiers p = p <-> normal_ids p).
Proof.
  split; [apply normalize_normal_ids|]. split.
  - intros <-. apply normalize_normal_ids.
  - apply normalize_fixed.
Qed.

(** ** [search_author]: when it returns, and what *)

Section Resolution.

Variable P : providers.
Variables now target : string.

Lemma isdigit_truthy (s : string) : isdigit s = true -> truthy s = true.
Proof. unfold isdigit. by intros [? _]%andb_true_iff. Qed.

(** The call, stage by stage. *)
Lemma search_author_stages :
  search_author P now target
  = match author_id (primary P now target) with
    | None =>
        Raise (AttributeError "'NoneType' object has no attribute 'isdigit'")
    | Some _ =>
        Ok (_normalize_identifiers
              (enrich_by_identity_record P now target
                 (enrich_by_registry_id P now target
                    (enrich_by_numeric_id P now target
                       (primary P now target)))))
    end.
Proof.
  unfold search_author.
  change ([_fetch_semantic_scholar_author_profile P target;
           _fetch_openalex_author_profile P target;
           _fetch_dblp_author_profile P target] ++
          [_search_semantic_scholar P target; _search_openalex P target;
           _search_dblp P target; _search_europepmc P target;
           _search_pubmed P target])%list
    with (fan_out P target).
  fold (primary P now target).
  unfold enrich_by_numeric_id.
  destruct (author_id (primary P now target)) as [i|] eqn:Hi; [|done].
  cbn [get_isdigit bind].
  destruct (isdigit i) eqn:Hd; [|done].
  by rewrite (isdigit_truthy i Hd).
Qed.

Lemma settled_details a m details :
  truthy a = true -> settled target a m ->
  settled target a (merge_details now target m details).
Proof.
  intros Ha [Hn Hi]. split.
  - by apply merge_details_name.
  - rewrite <- Hi. apply merge_details_kept_author_id. by rewrite Hi.
Qed.

Lemma settled_numeric a m :
  truthy a = true -> settled target a m ->
  settled target a (enrich_by_numeric_id P now target m).
Proof.
  intros Ha Hm. unfold enrich_by_numeric_id.
  destruct (author_id m) as [i|]; [|done].
  destruct (isdigit i); [|done]. by apply settled_details.
Qed.

Lemma settled_registry a m :
  truthy a = true -> settled target a m ->
  settled target a (enrich_by_registry_id P now target m).
Proof.
  intros Ha Hm. unfold enrich_by_registry_id.
  destruct (openalex_id_of _) as [i|]; [|done].
  destruct (truthy i); [|done]. by apply settled_details.
Qed.

Lemma settled_identity a m :
  truthy a = true -> settled target a m ->
  settled target a (enrich_by_identity_record P now target m).
Proof.
  intros Ha Hm. unfold enrich_by_identity_record.
  destruct (orcid m) as [o|]; [|done].
  destruct (truthy o); [|done]. by apply settled_details.
Qed.

Lemma primary_author_id :
  author_id (primary P now target)
  = first_truthy author_id (dicts_of (fan_out P target)).
Proof. apply merge_author_id. Qed.

Lemma first_truthy_some f ds a :
  first_truthy f ds = Some a -> truthy a = true.
Proof.
  intros H. destruct (first_truthy_is_truthy f ds) as [H'|H'].
  - congruence.
  - by rewrite H in H'.
Qed.

Lemma search_author_found (a : string) :
  first_truthy author_id (dicts_of (fan_out P target)) = Some a ->
  exists m,
    search_author P now target = Ok m
    /\ Authors.name m = Some target
    /\ author_id m
       = Some (if contains "openalex.org/" a then last_segment slash a else a)
    /\ normal_ids m.
Proof.
  intros Hfirst. pose proof (first_truthy_some _ _ _ Hfirst) as Ha.
  rewrite search_author_stages, primary_author_id, Hfirst.
  eexists. split; [reflexivity|].
  assert (settled target a (enrich_by_identity_record P now target
                       (enrich_by_registry_id P now target
                          (enrich_by_numeric_id P now target
                             (primary P now target))))) as [Hn Hi].
  { apply settled_identity, settled_registry, settled_numeric; try done.
    split; [done|]. by rewrite primary_author_id. }
  split; [by rewrite normalize_name|].
  split; [by rewrite normalize_author_id, Hi|].
  apply normalize_normal_ids.
Qed.

Lemma search_author_not_found :
  first_truthy author_id (dicts_of (fan_out P target)) = None ->
  search_author P now target
  = Raise (AttributeError "'NoneType' object has no attribute 'isdigit'").
Proof.
  intros H. by rewrite search_author_stages, primary_author_id, H.
Qed.

End Resolution.

(** X8: [search_author] returns exactly when some fan-out record carries a
    non-empty [author_id]; the profile it returns then has the name of the
    query, identifiers in normal form, and as [author_id] the first
    non-empty [author_id] of the fan-out, normalised: no enrichment stage
    changes it.  Without such a record the call raises [AttributeError]. *)
Theorem search_author_returns_iff_identified (P : providers)
    (now name : string) :
  (first_truthy author_id (dicts_of (fan_out P name)) = None ->
   search_author P now name
   = Raise (AttributeError "'NoneType' object has no attribute 'isdigit'")) /\
  (forall a,
     first_truthy author_id (dicts_of (fan_out P name)) = Some a ->
     exists m,
       search_author P now name = Ok m
       /\ Authors.name m = Some name
       /\ author_id m
          = Some (if contains "openalex.org/" a
                  then last_segment slash a else a)
       /\ normal_ids m).
Proof.
  split.
  - apply search_author_not_found.
  - intros a. apply search_author_found.
Qed.

Lemma search_author_returns_iff_identified_witness :
  exists m,
    search_author two_source_providers "2025-01-01T00:00:00" "Ada Example"
    = Ok m
    /\ Authors.name m = Some "Ada Example"
    /\ author_id m = Some "123"
    /\ normal_ids m.
Proof.
  destruct (search_author_returns_iff_identified two_source_providers
              "2025-01-01T00:00:00" "Ada Example") as [_ Hfound].
  apply (Hfound "123"). reflexivity.
Defined.

(** ** [search_author]: the two identifier lookups exclude each other *)

Section Lookups.

Lemma all_digits_prefix (c : ascii) (r s : string) :
  all_digits s = true -> String.prefix (String c r) s = true ->
  is_digit_char c = true.
Proof.
  destruct s as [|c' s]; simpl; [done|].
  intros [Hc _]%andb_true_iff. by destruct (ascii_dec c c') as [->|].
Qed.

Lemma all_digits_contains (c : ascii) (r s : string) :
  all_digits s = true -> contains (String c r) s = true ->
  is_digit_char c = true.
Proof.
  induction s as [|c' s IH]; intros Hd Hc; cbn [contains] in Hc.
  - by rewrite orb_false_r in Hc.
  - apply orb_true_iff in Hc as [Hc|Hc].
    + by apply (all_digits_prefix c r (String c' s)).
    + apply IH; [|done]. simpl in Hd. by apply andb_true_iff in Hd as [_ ?].
Qed.

(** A numeric identifier has not the shape of an OpenAlex identifier. *)
Lemma isdigit_not_openalex (a : string) :
  isdigit a = true -> openalex_id_of a = None.
Proof.
  unfold isdigit. intros [_ Hd]%andb_true_iff. unfold openalex_id_of.
  destruct (contains "openalex.org" a) eqn:Hc.
  { by apply (all_digits_contains _ _ _ Hd) in Hc. }
  unfold startswith. destruct (String.prefix "A" a) eqn:Hp.
  { by apply (all_digits_prefix _ _ _ Hd) in Hp. }
  reflexivity.
Qed.

Variable P : providers.
Variables now target : string.
Variable a : string.
Hypothesis Hfirst :
  first_truthy author_id (dicts_of (fan_out P target)) = Some a.

Lemma primary_settled : settled target a (primary P now target).
Proof. split; [done|]. by rewrite primary_author_id. Qed.

Lemma numeric_skips_registry (f : string -> option author_dict) :
  isdigit a = true ->
  search_author (with_openalex_details f P) now target
  = search_author P now target.
Proof.
  intros Hd. rewrite !search_author_stages.
  change (primary (with_openalex_details f P) now target)
    with (primary P now target).
  destruct (author_id (primary P now target)); [|done].
  change (enrich_by_numeric_id (with_openalex_details f P) now target
            (primary P now target))
    with (enrich_by_numeric_id P now target (primary P now target)).
  pose proof (settled_numeric P now target a _
                (first_truthy_some _ _ _ Hfirst) primary_settled) as [_ Hi].
  unfold enrich_by_registry_id.
  rewrite Hi. cbn [or_empty]. by rewrite (isdigit_not_openalex a Hd).
Qed.

Lemma other_skips_numeric (f : string -> option author_dict) :
  isdigit a = false ->
  search_author (with_s2_details f P) now target
  = search_author P now target.
Proof.
  intros Hd. rewrite !search_author_stages.
  change (primary (with_s2_details f P) now target)
    with (primary P now target).
  destruct primary_settled as [_ Hi]. rewrite Hi.
  unfold enrich_by_numeric_id. by rewrite Hi, Hd.
Qed.

End Lookups.

(** X9: the Semantic Scholar detail lookup and the OpenAlex detail lookup
    exclude each other.  When the identifier of the primary merge is
    numeric, the answer of [search_author] does not depend on what the
    OpenAlex lookup would return; when it is not numeric, the answer does
    not depend on what the Semantic Scholar lookup would return. *)
Theorem search_author_one_identifier_lookup (P : providers)
    (now name a : string) (f : string -> option author_dict) :
  first_truthy author_id (dicts_of (fan_out P name)) = Some a ->
  (isdigit a = true ->
   search_author (with_openalex_details f P) now name
   = search_author P now name) /\
  (isdigit a = false ->
   search_author (with_s2_details f P) now name
   = search_author P now name).
Proof.
  intros Hfirst. split.
  - by apply numeric_skips_registry.
  - by apply other_skips_numeric.
Qed.

Lemma search_author_one_identifier_lookup_witness :
  search_author
    (with_openalex_details (fun _ => Some thousand_papers)
                           two_source_providers)
    "2025-01-01T00:00:00" "Ada Example"
  = search_author two_source_providers "2025-01-01T00:00:00" "Ada Example".
Proof.
  destruct (search_author_one_identifier_lookup two_source_providers
              "2025-01-01T00:00:00" "Ada Example" "123"
              (fun _ => Some thousand_papers)) as [Hnum _].
  - reflexivity.
  - apply Hnum. reflexivity.
Defined.

(** ** The endpoints *)

Section Endpoints.

Variable P : providers.
Variable now : string.

Lemma endpoints_agree (request : Router.AuthorSearchRequest) :
  Router.search_author P now request
  = Router.search_author_by_name P now (Router.name request)
      (Router.institution request) (Router.field_of_study request)
      (Router.email request).
Proof. reflexivity. Qed.

Lemma by_name_unidentified (target : string)
    (institution field_of_study email : option string) :
  first_truthy author_id (dicts_of (fan_out P target)) = None ->
  Router.search_author_by_name P now target institution field_of_study email
  = Router.HTTPException 500 "Internal server error".
Proof.
  intros H. unfold Router.search_author_by_name.
  by rewrite (search_author_not_found P now target H).
Qed.

Lemma by_name_identified (target a : string)
    (institution field_of_study email : option string) :
  first_truthy author_id (dicts_of (fan_out P target)) = Some a ->
  exists m,
    search_author P now target = Ok m
    /\ Authors.name m = Some target
    /\ (exists i, author_id m = Some i)
    /\ normal_ids m
    /\ Router.search_author_by_name P now target institution field_of_study
         email
       = if Router.not_found m
         then Router.HTTPException 404
                ("No author information found for '" ++ target ++ "'")
         else Router.Returns m.
Proof.
  intros H. destruct (search_author_found P now target a H)
    as (m & Hm & Hn & Hi & Hnf).
  exists m. split; [done|]. split; [done|]. split; [eauto|].
  split; [done|].
  unfold Router.search_author_by_name. by rewrite Hm.
Qed.

End Endpoints.

(** X10: a query for which no fan-out record carries a non-empty
    [author_id] (in particular a query no provider knows anything about) is
    answered by both endpoints with status 500, "Internal server error",
    never with 404. *)
Theorem endpoints_unidentified_author_is_500 (P : providers) (now : string)
    (request : Router.AuthorSearchRequest) :
  first_truthy author_id (dicts_of (fan_out P (Router.name request))) = None ->
  Router.search_author P now request
  = Router.HTTPException 500 "Internal server error" /\
  Router.search_author_by_name P now (Router.name request)
    (Router.institution request) (Router.field_of_study request)
    (Router.email request)
  = Router.HTTPException 500 "Internal server error".
Proof.
  intros H. rewrite endpoints_agree. split; by apply by_name_unidentified.
Qed.

Lemma endpoints_unidentified_author_is_500_witness :
  Router.search_author silent_providers "2025-01-01T00:00:00"
    (Router.mk_request "Ada Example" None None None)
  = Router.HTTPException 500 "Internal server error".
Proof.
  apply (endpoints_unidentified_author_is_500 silent_providers
           "2025-01-01T00:00:00"
           (Router.mk_request "Ada Example" None None None)).
  reflexivity.
Defined.

(** X11: what the endpoints answer.  A profile that an endpoint returns has
    the name of the request, an [author_id], identifiers in normal form,
    and a non-zero [paper_count], a non-zero [citation_count] or a
    non-empty [orcid].  A 404 is raised only for a query for which some
    fan-out record did carry an author identifier, and carries the name in
    its detail.  No other status than 404 and 500 is raised. *)
Theorem endpoint_answers (P : providers) (now : string)
    (request : Router.AuthorSearchRequest) :
  (forall m,
     Router.search_author P now request = Router.Returns m ->
     Authors.name m = Some (Router.name request)
     /\ (exists i, author_id m = Some i)
     /\ normal_ids m
     /\ Router.not_found m = false) /\
  (forall code detail,
     Router.search_author P now request = Router.HTTPException code detail ->
     (code = 500%Z /\ detail = "Internal server error"
      /\ first_truthy author_id
           (dicts_of (fan_out P (Router.name request))) = None)
     \/ (code = 404%Z
         /\ detail = "No author information found for '"
                     ++ Router.name request ++ "'"
         /\ exists a, first_truthy author_id
                        (dicts_of (fan_out P (Router.name request)))
                      = Some a)).
Proof.
  rewrite endpoints_agree.
  destruct (first_truthy author_id
              (dicts_of (fan_out P (Router.name request)))) as [a|] eqn:Hf.
  - destruct (by_name_identified P now (Router.name request) a
                (Router.institution request) (Router.field_of_study request)
                (Router.email request) Hf)
      as (m & _ & Hn & Hi & Hnf & ->).
    destruct (Router.not_found m) eqn:Hm; split.
    + intros m' [=].
    + intros code detail [= <- <-]. right. eauto.
    + intros m' [= <-]. done.
    + intros code detail [=].
  - rewrite (by_name_unidentified P now _ _ _ _ Hf). split.
    + intros m [=].
    + intros code detail [= <- <-]. by left.
Qed.

Lemma endpoint_answers_witness :
  exists a,
    first_truthy author_id (dicts_of (fan_out pid_only_providers "Ada Example"))
    = Some a.
Proof.
  destruct (endpoint_answers pid_only_providers "2025-01-01T00:00:00"
              (Router.mk_request "Ada Example" None None None))
    as [_ Hraise].
  destruct (Hraise 404%Z "No author information found for 'Ada Example'")
    as [(Hcode & _)|(_ & _ & Hsome)].
  - reflexivity.
  - discriminate Hcode.
  - exact Hsome.
Defined.

(** ** The paper-based fallbacks *)

Section Fallbacks.

Import Enrichment.

Variable C : clients.
Variable target : string.

Lemma collect_fields_clean (ps : list (option paper)) (F : gset string) :
  existsb null_fields ps = false ->
  collect_fields ps F
  = Some (F ∪ list_to_set (concat (map paper_fields ps))).
Proof.
  revert F. induction ps as [|[q|] ps IH]; intros F; cbn [collect_fields].
  - intros _. cbn [map concat].
    by rewrite list_to_set_nil, (right_id_L ∅ (∪)).
  - cbn [existsb null_fields map concat paper_fields].
    destruct (fieldsOfStudy q) as [| |l]; cbn [orb]; intros H; [|done|].
    + rewrite (IH F H). cbn [app]. done.
    + rewrite (IH _ H), list_to_set_app_L. by rewrite (assoc_L (∪)).
  - done.
Qed.

Lemma collect_fields_null (ps : list (option paper)) (F : gset string) :
  existsb null_fields ps = true -> collect_fields ps F = None.
Proof.
  revert F. induction ps as [|[q|] ps IH]; intros F; cbn [collect_fields].
  - done.
  - cbn [existsb null_fields].
    destruct (fieldsOfStudy q) as [| |l]; cbn [orb]; intros H;
      [by apply IH | done | by apply IH].
  - done.
Qed.

Lemma in_paper_fields (ps : list (option paper)) (s : string) :
  In s (concat (map paper_fields ps))
  <-> exists p, In p ps /\ In s (paper_fields p).
Proof.
  rewrite in_concat. split.
  - intros (l & Hl & Hs). apply in_map_iff in Hl as (p & <- & Hp). eauto.
  - intros (p & Hp & Hs). exists (paper_fields p). split; [|done].
    by apply in_map.
Qed.

Lemma citations_of_present (ps : list (option paper)) :
  existsb null_citations ps = false ->
  citations_of ps = Some (map (fun p => Some (paper_citations p)) ps).
Proof.
  induction ps as [|[q|] ps IH]; cbn [citations_of existsb null_citations map].
  - done.
  - destruct (citationCount q) as [| |n] eqn:Hq; cbn [orb]; intros H;
      [|done|]; rewrite (IH H); cbn [paper_citations]; by rewrite Hq.
  - done.
Qed.

Lemma max_scan_present (c : Z) (xs : list Z) :
  max_scan (Some c) (map Some xs) = Some (max_of (c :: xs)).
Proof.
  revert c. induction xs as [|x xs IH]; intros c; cbn [max_scan map].
  - done.
  - rewrite IH. cbn [max_of fold_left]. do 3 f_equal.
    destruct (Z.ltb_spec c x); lia.
Qed.

Lemma max_citations_present (ps : list (option paper)) :
  ps <> [] ->
  max_citations (map (fun p => Some (paper_citations p)) ps)
  = Some (max_of (map paper_citations ps)).
Proof.
  destruct ps as [|p ps]; [done|]. intros _. cbn [map max_citations].
  rewrite <- (map_map paper_citations Some). apply max_scan_present.
Qed.

Lemma max_scan_null (cur : option Z) (xs : list (option Z)) :
  xs <> [] -> (cur = None \/ In None xs) -> max_scan cur xs = None.
Proof.
  revert cur. induction xs as [|x xs IH]; intros cur Hne Hnull; [done|].
  cbn [max_scan]. destruct cur as [c|]; [|done]. destruct x as [v|]; [|done].
  apply IH.
  - destruct xs; [|done]. destruct Hnull as [|[|[]]]; done.
  - destruct Hnull as [|[|]]; [done..|]. by right.
Qed.

Lemma citations_of_missing (ps : list (option paper)) :
  In None ps -> citations_of ps = None.
Proof.
  induction ps as [|[q|] ps IH]; cbn [citations_of]; [done| |done].
  intros [|H]; [done|]. by rewrite (IH H).
Qed.

Lemma citations_of_null (ps : list (option paper)) (cs : list (option Z)) :
  citations_of ps = Some cs ->
  existsb null_citations ps = true ->
  length cs = length ps /\ In None cs.
Proof.
  revert cs. induction ps as [|[q|] ps IH]; intros cs;
    cbn [citations_of existsb null_citations]; [done| |done].
  destruct (citations_of ps) as [cs'|] eqn:Hcs; [|done].
  intros [= <-] H. cbn [length].
  destruct (citationCount q) as [| |n]; cbn [orb] in H.
  - destruct (IH cs' eq_refl H) as [-> ?]. split; [done | by right].
  - split; [|by left]. f_equal.
    clear -Hcs. revert cs' Hcs.
    induction ps as [|[q'|] ps IH']; intros cs'; cbn [citations_of].
    + by intros [= <-].
    + destruct (citations_of ps) as [cs''|]; [|done].
      intros [= <-]. cbn [length]. f_equal. by apply IH'.
    + done.
  - destruct (IH cs' eq_refl H) as [-> ?]. split; [done | by right].
Qed.

Lemma fallback_no_author_id f client tag :
  In (f, client, tag) fallbacks ->
  f C target = empty_dict
  \/ exists ps cc fos,
       client C (author_query target) = Papers ps /\ ps <> []
       /\ f C target = counted target (length ps) cc fos tag.
Proof.
  cbn. intros [[= <- <- <-]|[[= <- <- <-]|[[= <- <- <-]|[[= <- <- <-]|
               [[= <- <- <-]|[]]]]]].
  - unfold _search_semantic_scholar.
    destruct (semantic_scholar C (author_query target)) as [e| |[|p ps]];
      [by left..|].
    destruct (collect_fields (p :: ps) ∅) as [F|]; [|by left].
    right. by eexists _, _, _.
  - unfold _search_openalex.
    destruct (openalex C (author_query target)) as [e| |[|p ps]];
      [by left..|].
    destruct (citations_of (p :: ps)) as [cs|]; [|by left].
    destruct (max_citations cs) as [cc|]; [|by left].
    right. by eexists _, _, _.
  - unfold _search_dblp.
    destruct (dblp C (author_query target)) as [e| |[|p ps]]; [by left..|].
    right. by eexists _, _, _.
  - unfold _search_europepmc.
    destruct (europepmc C (author_query target)) as [e| |[|p ps]];
      [by left..|].
    right. by eexists _, _, _.
  - unfold _search_pubmed.
    destruct (pubmed C (author_query target)) as [e| |[|p ps]]; [by left..|].
    right. by eexists _, _, _.
Qed.

End Fallbacks.

(** X12: a fallback contributes nothing, or a record with the name of the
    query, the number of papers its client returned (at least one), its own
    tag as the only source, and no identifier, URL, affiliation or
    h-index. *)
Theorem fallback_contribution (C : Enrichment.clients) (name : string)
    (f : Enrichment.clients -> string -> author_dict)
    (client : Enrichment.clients -> string -> Enrichment.answer)
    (tag : string) :
  In (f, client, tag) fallbacks ->
  f C name = empty_dict
  \/ exists ps cc fos,
       client C (Enrichment.author_query name) = Enrichment.Papers ps
       /\ ps <> []
       /\ f C name = Enrichment.counted name (length ps) cc fos tag.
Proof. apply fallback_no_author_id. Qed.

Lemma fallback_contribution_witness :
  Enrichment._search_dblp
    (clients_answering (Enrichment.Papers [Some paper_ai; Some paper_plain]))
    "Ada Example" = empty_dict
  \/ exists ps cc fos,
       Enrichment.dblp
         (clients_answering
            (Enrichment.Papers [Some paper_ai; Some paper_plain]))
         (Enrichment.author_query "Ada Example") = Enrichment.Papers ps
       /\ ps <> []
       /\ Enrichment._search_dblp
            (clients_answering
               (Enrichment.Papers [Some paper_ai; Some paper_plain]))
            "Ada Example"
          = Enrichment.counted "Ada Example" (length ps) cc fos "dblp".
Proof.
  apply (fallback_contribution
           (clients_answering
              (Enrichment.Papers [Some paper_ai; Some paper_plain]))
           "Ada Example" Enrichment._search_dblp Enrichment.dblp "dblp").
  cbn. tauto.
Defined.

(** X13: the Semantic Scholar fallback on a non-empty list of papers.  If an
    entry is [None] or has ["fieldsOfStudy"] bound to [None], the whole
    contribution is lost (the result is [{}]); otherwise the record counts
    every paper and its fields of study are the fields the papers list,
    each once. *)
Theorem search_semantic_scholar_fields (C : Enrichment.clients)
    (name : string) (ps : list (option Enrichment.paper)) :
  Enrichment.semantic_scholar C (Enrichment.author_query name)
  = Enrichment.Papers ps ->
  ps <> [] ->
  (existsb null_fields ps = true ->
   Enrichment._search_semantic_scholar C name = empty_dict) /\
  (existsb null_fields ps = false ->
   paper_count (Enrichment._search_semantic_scholar C name)
   = Some (Z.of_nat (length ps))
   /\ NoDup (fields_of_study (Enrichment._search_semantic_scholar C name))
   /\ forall s,
        In s (fields_of_study (Enrichment._search_semantic_scholar C name))
        <-> exists p, In p ps /\ In s (paper_fields p)).
Proof.
  intros HC Hne. unfold Enrichment._search_semantic_scholar. rewrite HC.
  destruct ps as [|p ps]; [done|]. split; intros H.
  - by rewrite collect_fields_null.
  - rewrite collect_fields_clean by done.
    rewrite (left_id_L ∅ (∪)).
    cbn [Enrichment.counted paper_count fields_of_study].
    split; [done|]. split; [apply NoDup_elements|].
    intros s. by rewrite in_elements_list_to_set, in_paper_fields.
Qed.

Lemma search_semantic_scholar_fields_witness :
  Enrichment._search_semantic_scholar
    (clients_answering (Enrichment.Papers [Some paper_ai; Some paper_null]))
    "Ada Example" = empty_dict /\
  paper_count
    (Enrichment._search_semantic_scholar
       (clients_answering (Enrichment.Papers [Some paper_ai; Some paper_plain]))
       "Ada Example") = Some 2%Z.
Proof.
  split.
  - destruct (search_semantic_scholar_fields
                (clients_answering
                   (Enrichment.Papers [Some paper_ai; Some paper_null]))
                "Ada Example" [Some paper_ai; Some paper_null])
      as [Hnull _]; [reflexivity | discriminate |].
    apply Hnull. reflexivity.
  - destruct (search_semantic_scholar_fields
                (clients_answering
                   (Enrichment.Papers [Some paper_ai; Some paper_plain]))
                "Ada Example" [Some paper_ai; Some paper_plain])
      as [_ Hclean]; [reflexivity | discriminate |].
    apply Hclean. reflexivity.
Defined.

(** X14: the OpenAlex fallback on a non-empty list of papers.  When every
    entry is a paper whose ["citationCount"] is absent or an integer, the
    record counts every paper and its [citation_count] is the largest
    per-paper count, an absent key counting as 0 (not the total of the
    citations).  When two or more papers are returned and an entry is
    [None] or has the key bound to [None], the result is [{}]. *)
Theorem search_openalex_citations (C : Enrichment.clients) (name : string)
    (ps : list (option Enrichment.paper)) :
  Enrichment.openalex C (Enrichment.author_query name)
  = Enrichment.Papers ps ->
  ps <> [] ->
  (existsb null_citations ps = false ->
   exists m,
     Enrichment._search_openalex C name
     = Enrichment.counted name (length ps) (Some m) [] "openalex"
     /\ is_maximum m (map paper_citations ps)) /\
  (existsb null_citations ps = true -> (2 <= length ps)%nat ->
   Enrichment._search_openalex C name = empty_dict).
Proof.
  intros HC Hne. unfold Enrichment._search_openalex. rewrite HC.
  destruct ps as [|p ps]; [done|]. split.
  - intros H. rewrite citations_of_present by done.
    rewrite max_citations_present by done.
    destruct (max_of_nonempty (map paper_citations (p :: ps))) as [m Hm];
      [done|].
    exists m. rewrite Hm. split; [done | by apply max_of_is_maximum].
  - intros H Hlen.
    destruct (Enrichment.citations_of (p :: ps)) as [cs|] eqn:Hcs; [|done].
    destruct (citations_of_null _ _ Hcs H) as [Hl Hin].
    destruct cs as [|c cs]; [done|]. cbn [Enrichment.max_citations].
    rewrite max_scan_null; [done| |].
    + destruct cs; [|done]. cbn in Hl, Hlen. lia.
    + destruct Hin as [->|Hin]; [by left | by right].
Qed.

Lemma search_openalex_citations_witness :
  (exists m,
     Enrichment._search_openalex
       (clients_answering (Enrichment.Papers [Some paper_ai; Some paper_plain]))
       "Ada Example"
     = Enrichment.counted "Ada Example" 2 (Some m) [] "openalex"
     /\ is_maximum m [7; 0]%Z) /\
  Enrichment._search_openalex
    (clients_answering (Enrichment.Papers [Some paper_ai; Some paper_null]))
    "Ada Example" = empty_dict.
Proof.
  split.
  - destruct (search_openalex_citations
                (clients_answering
                   (Enrichment.Papers [Some paper_ai; Some paper_plain]))
                "Ada Example" [Some paper_ai; Some paper_plain])
      as [Hmax _]; [reflexivity | discriminate |].
    apply Hmax. reflexivity.
  - destruct (search_openalex_citations
                (clients_answering
                   (Enrichment.Papers [Some paper_ai; Some paper_null]))
                "Ada Example" [Some paper_ai; Some paper_null])
      as [_ Hnull]; [reflexivity | discriminate |].
    apply Hnull; [reflexivity | cbn; lia].
Defined.

(** ** Fallbacks and the orchestrator *)

Section FallbacksOnly.

Variable C : Enrichment.clients.
Variable target : string.

Lemma fallback_author_id f client tag :
  In (f, client, tag) fallbacks -> author_id (f C target) = None.
Proof.
  intros [->|(ps & cc & fos & _ & _ & ->)]%(fallback_no_author_id C target);
    reflexivity.
Qed.

Lemma no_contribution_author_id (r : gathered) :
  no_contribution r ->
  first_truthy author_id (dicts_of [r]) = None.
Proof.
  destruct r as [e|d]; cbn; [done|].
  by intros ->%dict_falsy_empty.
Qed.

Lemma first_truthy_app f ds1 ds2 :
  first_truthy f ds1 = None ->
  first_truthy f (ds1 ++ ds2) = first_truthy f ds2.
Proof.
  induction ds1 as [|d ds1 IH]; cbn; [done|].
  destruct (str_truthy (f d)) eqn:Hd; [|done].
  intros H. by rewrite H in Hd.
Qed.

End FallbacksOnly.

(** X15: the fallbacks cannot identify an author.  When the three
    profile-style calls fail or return empty, [search_author] raises
    [AttributeError] whatever the five paper clients answer, also when
    they found papers. *)
Theorem fallbacks_alone_raise (C : Enrichment.clients) (P : providers)
    (now name : string) :
  no_contribution (_fetch_semantic_scholar_author_profile P name) ->
  no_contribution (_fetch_openalex_author_profile P name) ->
  no_contribution (_fetch_dblp_author_profile P name) ->
  search_author (Enrichment.with_clients C P) now name
  = Raise (AttributeError "'NoneType' object has no attribute 'isdigit'").
Proof.
  intros H1 H2 H3. apply search_author_not_found.
  change (fan_out (Enrichment.with_clients C P) name)
    with ([_fetch_semantic_scholar_author_profile P name] ++
          [_fetch_openalex_author_profile P name] ++
          [_fetch_dblp_author_profile P name] ++
          [Returned (Enrichment._search_semantic_scholar C name);
           Returned (Enrichment._search_openalex C name);
           Returned (Enrichment._search_dblp C name);
           Returned (Enrichment._search_europepmc C name);
           Returned (Enrichment._search_pubmed C name)])%list.
  unfold dicts_of. rewrite !omap_app.
  rewrite !first_truthy_app by by apply no_contribution_author_id.
  cbn [omap list_omap first_truthy].
  rewrite (fallback_author_id C name Enrichment._search_semantic_scholar
             Enrichment.semantic_scholar "semantic_scholar") by (cbn; tauto).
  rewrite (fallback_author_id C name Enrichment._search_openalex
             Enrichment.openalex "openalex") by (cbn; tauto).
  rewrite (fallback_author_id C name Enrichment._search_dblp
             Enrichment.dblp "dblp") by (cbn; tauto).
  rewrite (fallback_author_id C name Enrichment._search_europepmc
             Enrichment.europepmc "europepmc") by (cbn; tauto).
  rewrite (fallback_author_id C name Enrichment._search_pubmed
             Enrichment.pubmed "pubmed") by (cbn; tauto).
  reflexivity.
Qed.

Lemma fallbacks_alone_raise_witness :
  search_author
    (Enrichment.with_clients
       (clients_answering (Enrichment.Papers [Some paper_ai; Some paper_plain]))
       silent_providers)
    "2025-01-01T00:00:00" "Ada Example"
  = Raise (AttributeError "'NoneType' object has no attribute 'isdigit'").
Proof.
  apply (fallbacks_alone_raise
           (clients_answering
              (Enrichment.Papers [Some paper_ai; Some paper_plain]))
           silent_providers "2025-01-01T00:00:00" "Ada Example");
    reflexivity.
Defined.

(** ** The confidence score and the order of the answers *)

Section ScoreOrder.

Lemma first_truthy_exists (f : author_dict -> option string)
    (ds : list author_dict) :
  str_truthy (first_truthy f ds) = existsb (fun d => str_truthy (f d)) ds.
Proof.
  induction ds as [|d ds IH]; cbn; [done|].
  by destruct (str_truthy (f d)) eqn:Hd.
Qed.

Lemma existsb_perm {A} (p : A -> bool) (l l' : list A) :
  Permutation l l' -> existsb p l = existsb p l'.
Proof.
  induction 1 as [|x l l' _ IH|x y l|l l' l'' _ IH1 _ IH2]; cbn.
  - done.
  - by rewrite IH.
  - by destruct (p x), (p y).
  - congruence.
Qed.

Lemma dicts_of_perm (rs rs' : list gathered) :
  Permutation rs rs' -> Permutation (dicts_of rs) (dicts_of rs').
Proof. intros H. unfold dicts_of. by rewrite H. Qed.

Lemma source_set_perm (rs rs' : list gathered) :
  Permutation rs rs' ->
  (list_to_set (concat (map sources (dicts_of rs))) : gset string)
  = list_to_set (concat (map sources (dicts_of rs'))).
Proof.
  intros H%dicts_of_perm. apply set_eq. intros s.
  rewrite !elem_of_list_to_set, !list_elem_of_In, !in_concat_map.
  split; intros (d & Hd & Hs); exists d; split; try done.
  - by apply (Permutation_in _ H).
  - by apply (Permutation_in _ (Permutation_sym H)).
Qed.

(** The score reads [orcid] through its truth value only. *)
Lemma confidence_orcid_truth srcs pc cc oid oid' h :
  str_truthy oid = str_truthy oid' ->
  confidence srcs pc cc oid h = confidence srcs pc cc oid' h.
Proof. intros H. unfold confidence, raw_score. by rewrite H. Qed.

Lemma merge_confidence_score now name rs :
  confidence_score (_merge_author_data now name rs)
  = Some (confidence (sources (_merge_author_data now name rs))
                     (paper_count (_merge_author_data now name rs))
                     (citation_count (_merge_author_data now name rs))
                     (orcid (_merge_author_data now name rs))
                     (h_index (_merge_author_data now name rs))).
Proof. reflexivity. Qed.

End ScoreOrder.

(** X16: the confidence score does not depend on the order of the provider
    answers, although the identifiers do: permuting the list that is merged
    leaves the score as it is. *)
Theorem confidence_score_order_free (now name : string)
    (rs rs' : list gathered) :
  Permutation rs rs' ->
  confidence_score (_merge_author_data now name rs')
  = confidence_score (_merge_author_data now name rs).
Proof.
  intros H. rewrite !merge_confidence_score. f_equal.
  rewrite !merge_sources, !merge_paper_count, !merge_citation_count,
          !merge_h_index, !merge_orcid.
  rewrite (source_set_perm rs rs' H).
  rewrite (max_of_perm _ _ (supplied_perm paper_count _ _ H)).
  rewrite (max_of_perm _ _ (supplied_perm citation_count _ _ H)).
  rewrite (max_of_perm _ _ (supplied_perm h_index _ _ H)).
  apply confidence_orcid_truth.
  rewrite !first_truthy_exists. symmetry.
  apply existsb_perm, dicts_of_perm, H.
Qed.

Lemma confidence_score_order_free_witness :
  confidence_score
    (_merge_author_data "2025-01-01T00:00:00" "Ada Example"
       [Returned fallback_record; Returned profile_record])
  = confidence_score
      (_merge_author_data "2025-01-01T00:00:00" "Ada Example"
         [Returned profile_record; Returned fallback_record]).
Proof.
  apply (confidence_score_order_free "2025-01-01T00:00:00" "Ada Example"
           [Returned profile_record; Returned fallback_record]
           [Returned fallback_record; Returned profile_record]).
  apply perm_swap.
Defined.

(** ** The values of the confidence score *)

Section ScoreGrid.

Local Open Scope float_scope.

Ltac tenth k :=
  exists k; split; [lia | vm_compute; reflexivity].

Lemma confidence_grid (srcs : list string) (pc cc : option Z)
    (oid : option string) (h : option Z) :
  exists k : Z,
    (0 <= k <= 10)%Z
    /\ confidence srcs pc cc oid h = PyFloat.of_int k / PyFloat.of_int 10.
Proof.
  unfold confidence, raw_score.
  destruct (capped_cases (size (list_to_set
             (filter (fun s => s ∈ authoritative) srcs) : gset string)))
    as [-> | [-> | ->]];
    destruct (int_truthy pc), (int_truthy cc), (str_truthy oid),
             (int_truthy h);
    first [ tenth 0%Z | tenth 1%Z | tenth 2%Z | tenth 3%Z | tenth 4%Z
          | tenth 5%Z | tenth 6%Z | tenth 7%Z | tenth 8%Z | tenth 9%Z
          | tenth 10%Z ].
Qed.

End ScoreGrid.

(** X17: the confidence score of a merged profile is exactly one of the
    eleven floats 0.0, 0.1, ..., 1.0 (the float nearest to k/10): the
    rounding leaves no floating-point residue of the sum. *)
Theorem confidence_score_is_a_tenth (now name : string) (rs : list gathered) :
  exists k : Z,
    (0 <= k <= 10)%Z
    /\ confidence_score (_merge_author_data now name rs)
       = Some (PyFloat.of_int k / PyFloat.of_int 10)%float.
Proof.
  rewrite merge_confidence_score.
  destruct (confidence_grid (sources (_merge_author_data now name rs))
              (paper_count (_merge_author_data now name rs))
              (citation_count (_merge_author_data now name rs))
              (orcid (_merge_author_data now name rs))
              (h_index (_merge_author_data now name rs)))
    as (k & Hk & ->).
  eauto.
Qed.

(** ** [search_author]: counts from end to end *)

Section Counts.

Variable P : providers.
Variables now target : string.

Lemma at_least_not_lowered f n m r :
  not_lowered f m r -> at_least f n m -> at_least f n r.
Proof.
  intros Hnl (n1 & H1 & Hle). destruct (Hnl n1 H1) as (n2 & H2 & Hle2).
  exists n2. split; [done | lia].
Qed.

Lemma merge_details_paper_count m details :
  not_lowered paper_count m (merge_details now target m details).
Proof.
  unfold merge_details. destruct details as [d|]; [|apply not_lowered_refl].
  destruct (dict_truthy d); [|apply not_lowered_refl].
  apply merge_pair_paper_count.
Qed.

Lemma merge_details_citation_count m details :
  not_lowered citation_count m (merge_details now target m details).
Proof.
  unfold merge_details. destruct details as [d|]; [|apply not_lowered_refl].
  destruct (dict_truthy d); [|apply not_lowered_refl].
  apply merge_pair_citation_count.
Qed.

Lemma stages_not_lowered (f : author_dict -> option Z) :
  (forall m details, not_lowered f m (merge_details now target m details)) ->
  forall n m,
    at_least f n m ->
    at_least f n (enrich_by_identity_record P now target
                    (enrich_by_registry_id P now target
                       (enrich_by_numeric_id P now target m))).
Proof.
  intros Hf n m Hm.
  assert (at_least f n (enrich_by_numeric_id P now target m)) as H1.
  { unfold enrich_by_numeric_id. destruct (author_id m) as [i|]; [|done].
    destruct (isdigit i); [|done]. by apply (at_least_not_lowered f n m). }
  assert (at_least f n (enrich_by_registry_id P now target
                          (enrich_by_numeric_id P now target m))) as H2.
  { unfold enrich_by_registry_id at 1.
    destruct (openalex_id_of _) as [i|]; [|done].
    destruct (truthy i); [|done].
    by apply (at_least_not_lowered f n (enrich_by_numeric_id P now target m)). }
  unfold enrich_by_identity_record at 1.
  destruct (orcid _) as [o|]; [|done]. destruct (truthy o); [|done].
  by apply (at_least_not_lowered f n
              (enrich_by_registry_id P now target
                 (enrich_by_numeric_id P now target m))).
Qed.

Lemma normalize_paper_count (p : author_dict) :
  paper_count (_normalize_identifiers p) = paper_count p.
Proof.
  unfold _normalize_identifiers.
  destruct (author_id p) as [a|];
    [destruct (contains "openalex.org/" a)|];
    cbn; (destruct (orcid p) as [o|]; [destruct (contains "/" o)|]);
    reflexivity.
Qed.

Lemma normalize_citation_count (p : author_dict) :
  citation_count (_normalize_identifiers p) = citation_count p.
Proof.
  unfold _normalize_identifiers.
  destruct (author_id p) as [a|];
    [destruct (contains "openalex.org/" a)|];
    cbn; (destruct (orcid p) as [o|]; [destruct (contains "/" o)|]);
    reflexivity.
Qed.

Lemma primary_at_least (f : author_dict -> option Z) (n : Z) :
  (forall rs, f (_merge_author_data now target rs)
              = Some (default 0%Z (max_of (supplied f rs)))) ->
  In n (supplied f (fan_out P target)) ->
  at_least f n (primary P now target).
Proof.
  intros Hf Hn. unfold primary, at_least. rewrite Hf.
  destruct (max_of_nonempty (supplied f (fan_out P target))) as [m Hm].
  { by destruct (supplied f (fan_out P target)). }
  rewrite Hm. exists m. split; [done|].
  apply max_of_is_maximum in Hm as [_ Hge]. by apply Hge.
Qed.

Lemma search_author_at_least (m : author_dict) (n : Z) :
  search_author P now target = Ok m ->
  (In n (supplied paper_count (fan_out P target)) ->
   at_least paper_count n m) /\
  (In n (supplied citation_count (fan_out P target)) ->
   at_least citation_count n m).
Proof.
  rewrite search_author_stages.
  destruct (author_id (primary P now target)); [|done].
  intros [= <-]. split; intros Hn.
  - unfold at_least. rewrite normalize_paper_count.
    apply stages_not_lowered; [apply merge_details_paper_count|].
    apply primary_at_least; [apply merge_paper_count | done].
  - unfold at_least. rewrite normalize_citation_count.
    apply stages_not_lowered; [apply merge_details_citation_count|].
    apply primary_at_least; [apply merge_citation_count | done].
Qed.

End Counts.

(** X18: enrichment never lowers a count from end to end: when
    [search_author] returns, its [paper_count] is at least every paper
    count a fan-out record supplied, and likewise its [citation_count]. *)
Theorem search_author_keeps_counts (P : providers) (now name : string)
    (m : author_dict) (n : Z) :
  search_author P now name = Ok m ->
  (In n (supplied paper_count (fan_out P name)) ->
   exists n', paper_count m = Some n' /\ (n <= n')%Z) /\
  (In n (supplied citation_count (fan_out P name)) ->
   exists n', citation_count m = Some n' /\ (n <= n')%Z).
Proof. apply search_author_at_least. Qed.

Lemma search_author_keeps_counts_witness :
  exists n',
    paper_count
      (_normalize_identifiers
         (_merge_author_data "2025-01-01T00:00:00" "Ada Example"
            (fan_out two_source_providers "Ada Example"))) = Some n'
    /\ (15 <= n')%Z.
Proof.
  destruct (search_author_keeps_counts two_source_providers
              "2025-01-01T00:00:00" "Ada Example"
              (_normalize_identifiers
                 (_merge_author_data "2025-01-01T00:00:00" "Ada Example"
                    (fan_out two_source_providers "Ada Example")))
              15%Z) as [Hpc _].
  - reflexivity.
  - apply Hpc. cbn. tauto.
Defined.

(** ** [_pick_best_name_match]: a target without letters *)

Section EmptyTarget.

Variables s2 openalex dblp : bool.

Lemma find_ext {A} (f g : A -> bool) (l : list A) :
  (forall x, f x = g x) -> List.find f l = List.find g l.
Proof.
  intros H. induction l as [|x l IH]; cbn; [done|]. by rewrite H, IH.
Qed.

Lemma substring_match_empty (c : candidate) :
  substring_match s2 openalex dblp "" c = has_names s2 openalex dblp c.
Proof.
  unfold substring_match, has_names.
  destruct (truthy_names (names_of s2 openalex dblp c)) as [|n ns];
    [done|].
  cbn [existsb is_cons]. by rewrite (contains_of_prefix "" _ (prefix_empty _)).
Qed.

End EmptyTarget.

(** X19: a target that normalises to the empty string (only periods and
    blanks) matches every candidate that has a usable name: the matcher
    answers the first candidate whose name also normalises to the empty
    string, else the first candidate with a usable name, else the first
    candidate. *)
Theorem pick_best_empty_target (target_name : string) (cs : list candidate)
    (s2 openalex dblp : bool) :
  norm (Some target_name) = "" ->
  _pick_best_name_match target_name cs s2 openalex dblp
  = match List.find (exact_match s2 openalex dblp "") cs with
    | Some c => Some c
    | None =>
        match List.find (has_names s2 openalex dblp) cs with
        | Some c => Some c
        | None => head cs
        end
    end.
Proof.
  intros Ht. rewrite pick_best_is_pick_spec, Ht. unfold pick_spec.
  by rewrite (find_ext _ _ cs (substring_match_empty s2 openalex dblp)).
Qed.

Lemma pick_best_empty_target_witness :
  _pick_best_name_match " . " [nameless; named "John Smith"; named "Ada"]
    false false false
  = Some (named "John Smith").
Proof.
  rewrite (pick_best_empty_target " . "
             [nameless; named "John Smith"; named "Ada"] false false false).
  - reflexivity.
  - reflexivity.
Defined.

(** * The matcher against its description *)

(** ** The normal form of a name *)

Section NormalFormOfNames.

Lemma lower_char_to_lower (c : ascii) : lower_char c = to_lower c.
Proof. destruct c as [[] [] [] [] [] [] [] []]; reflexivity. Qed.

Lemma is_space_whitespace (c : ascii) : is_space c = whitespace c.
Proof. destruct c as [[] [] [] [] [] [] [] []]; reflexivity. Qed.

Lemma list_of_lower (s : string) :
  list_ascii_of_string (lower s) = map to_lower (list_ascii_of_string s).
Proof.
  induction s as [|c s IH]; cbn [lower list_ascii_of_string map]; [done|].
  by rewrite IH, lower_char_to_lower.
Qed.

Lemma list_of_remove_char (s : string) :
  list_ascii_of_string (remove_char dot s)
  = List.filter (fun c => negb (period c)) (list_ascii_of_string s).
Proof.
  induction s as [|c s IH];
    cbn [remove_char list_ascii_of_string List.filter]; [done|].
  unfold period, dot in *.
  destruct (Ascii.eqb c "."); cbn [negb list_ascii_of_string];
    by rewrite IH.
Qed.

Lemma list_of_lstrip (s : string) :
  list_ascii_of_string (lstrip s)
  = drop_while whitespace (list_ascii_of_string s).
Proof.
  induction s as [|c s IH];
    cbn [lstrip list_ascii_of_string drop_while]; [done|].
  rewrite <- is_space_whitespace. by destruct (is_space c).
Qed.

Lemma drop_while_snoc (p : ascii -> bool) (l : list ascii) (c : ascii) :
  drop_while p (l ++ [c])
  = match drop_while p l with
    | [] => if p c then [] else [c]
    | r => (r ++ [c])%list
    end.
Proof.
  induction l as [|x l IH]; cbn; [done|].
  destruct (p x); [apply IH | done].
Qed.

Lemma list_of_rstrip (s : string) :
  list_ascii_of_string (rstrip s)
  = rev (drop_while whitespace (rev (list_ascii_of_string s))).
Proof.
  induction s as [|c s IH]; [done|].
  cbn [rstrip list_ascii_of_string rev]. rewrite drop_while_snoc.
  destruct (rstrip s) as [|c' r] eqn:Hr; cbn [list_ascii_of_string] in IH.
  - destruct (drop_while whitespace (rev (list_ascii_of_string s)))
      as [|y l] eqn:Hd.
    + rewrite <- is_space_whitespace. by destruct (is_space c).
    + exfalso. cbn [rev] in IH. by destruct (rev l).
  - destruct (drop_while whitespace (rev (list_ascii_of_string s)))
      as [|y l] eqn:Hd; [done|].
    rewrite rev_app_distr. cbn [rev app list_ascii_of_string].
    by rewrite IH.
Qed.

(** The code's [norm] computes the normal form. *)
Lemma norm_normal_form (s : string) : norm (Some s) = normal_form s.
Proof.
  unfold norm, normal_form, strip, trim. cbn [or_empty].
  rewrite <- (string_of_list_ascii_of_string (rstrip _)).
  by rewrite list_of_rstrip, list_of_lstrip, list_of_remove_char,
             list_of_lower.
Qed.

End NormalFormOfNames.

(** ** The names of a candidate *)

Section NamesOfCandidates.

Lemma truthy_non_empty (s : string) :
  truthy s = negb (String.eqb s EmptyString).
Proof. by destruct s. Qed.

Lemma truthy_names_cons (v : option string) (l : list (option string)) :
  truthy_names (v :: l) = (non_empty (opt_list v) ++ truthy_names l)%list.
Proof.
  unfold truthy_names. destruct v as [s|]; cbn; [|done].
  rewrite truthy_non_empty. by destruct (String.eqb s "").
Qed.

Lemma truthy_names_some (l : list string) :
  truthy_names (map Some l) = non_empty l.
Proof.
  induction l as [|s l IH]; [done|].
  cbn [map]. rewrite truthy_names_cons, IH. cbn.
  by destruct (String.eqb s "").
Qed.

Lemma non_empty_app (l k : list string) :
  non_empty (l ++ k) = (non_empty l ++ non_empty k)%list.
Proof. unfold non_empty. apply List.filter_app. Qed.

Lemma names_usable (s2 openalex dblp : bool) (c : candidate) :
  truthy_names (names_of s2 openalex dblp c)
  = usable_names (shape_of s2 openalex dblp) c.
Proof.
  unfold names_of, shape_of, usable_names.
  destruct s2; [|destruct openalex; [|destruct dblp]].
  - by rewrite truthy_names_cons, truthy_names_some, non_empty_app.
  - by rewrite truthy_names_cons, truthy_names_some, non_empty_app.
  - rewrite truthy_names_cons. change (truthy_names []) with (@nil string).
    rewrite app_nil_r. unfold str_or.
    by destruct (cand_author c) as [[|x a]|].
  - rewrite truthy_names_cons. change (truthy_names []) with (@nil string).
    by rewrite app_nil_r.
Qed.

End NamesOfCandidates.

(** ** Occurrence *)

Section Occurrence.

Lemma prefix_iff (a b : string) :
  String.prefix a b = true <-> exists post, b = (a ++ post)%string.
Proof.
  revert b. induction a as [|c a IH]; intros b;
    cbn [String.prefix append].
  - split; [intros _; by exists b | by destruct b].
  - destruct b as [|c' b]; cbn [String.prefix].
    + split; [done | by intros [post ?]].
    + destruct (ascii_dec c c') as [->|Hne].
      * split.
        -- intros [post ->]%IH. by exists post.
        -- intros [post [= ->]]. apply IH. by exists post.
      * split; [done | intros [post [= Hc _]]; by destruct Hne].
Qed.

Lemma contains_within (a b : string) :
  contains a b = true <-> within a b.
Proof.
  unfold within. split.
  - induction b as [|c b IH]; cbn [contains]; intros H.
    + rewrite orb_false_r in H. apply prefix_iff in H as [post ->].
      by exists EmptyString, post.
    + apply orb_true_iff in H as [H|H].
      * apply prefix_iff in H as [post ->]. by exists EmptyString, post.
      * destruct (IH H) as (pre & post & ->). by exists (String c pre), post.
  - intros (pre & post & ->). induction pre as [|c pre IH]; cbn [append].
    + apply contains_of_prefix, prefix_iff. by exists post.
    + by apply contains_cons.
Qed.

End Occurrence.

(** ** The policy of the matcher *)

Section Policy.

Variables s2 openalex dblp : bool.
Variable target : string.

Lemma exact_match_exactly (c : candidate) :
  exact_match s2 openalex dblp (norm (Some target)) c = true
  <-> exactly (shape_of s2 openalex dblp) target c.
Proof.
  unfold exact_match, exactly. rewrite names_usable, existsb_exists.
  split; intros (n & Hin & H); exists n; (split; [done|]).
  - apply String.eqb_eq in H. by rewrite <- !norm_normal_form.
  - apply String.eqb_eq. by rewrite !norm_normal_form.
Qed.

Lemma substring_match_partly (c : candidate) :
  substring_match s2 openalex dblp (norm (Some target)) c = true
  <-> partly (shape_of s2 openalex dblp) target c.
Proof.
  unfold substring_match, partly. rewrite names_usable, existsb_exists.
  split; intros (n & Hin & H); exists n; (split; [done|]).
  - apply orb_true_iff in H.
    rewrite !contains_within, !norm_normal_form in H. done.
  - apply orb_true_iff.
    by rewrite !contains_within, !norm_normal_form.
Qed.

Lemma not_exactly (c : candidate) :
  ~ exactly (shape_of s2 openalex dblp) target c ->
  exact_match s2 openalex dblp (norm (Some target)) c = false.
Proof.
  intros H. destruct (exact_match _ _ _ _ c) eqn:He; [|done].
  by apply exact_match_exactly in He.
Qed.

Lemma not_partly (c : candidate) :
  ~ partly (shape_of s2 openalex dblp) target c ->
  substring_match s2 openalex dblp (norm (Some target)) c = false.
Proof.
  intros H. destruct (substring_match _ _ _ _ c) eqn:He; [|done].
  by apply substring_match_partly in He.
Qed.

Lemma find_first {A} (f : A -> bool) (pre : list A) (x : A) (post : list A) :
  f x = true -> (forall y, In y pre -> f y = false) ->
  List.find f (pre ++ x :: post) = Some x.
Proof.
  intros Hx. induction pre as [|y pre IH]; intros Hpre; cbn.
  - by rewrite Hx.
  - rewrite (Hpre y) by by left. apply IH. intros z Hz. apply Hpre. by right.
Qed.

Lemma find_nothing {A} (f : A -> bool) (l : list A) :
  (forall y, In y l -> f y = false) -> List.find f l = None.
Proof.
  induction l as [|y l IH]; intros H; cbn; [done|].
  rewrite (H y) by by left. apply IH. intros z Hz. apply H. by right.
Qed.

Lemma pick_first_exact (pre : list candidate) (c : candidate)
    (post : list candidate) :
  exactly (shape_of s2 openalex dblp) target c ->
  (forall c', In c' pre -> ~ exactly (shape_of s2 openalex dblp) target c') ->
  _pick_best_name_match target (pre ++ c :: post) s2 openalex dblp = Some c.
Proof.
  intros Hc Hpre. rewrite pick_best_is_pick_spec. unfold pick_spec.
  rewrite (find_first _ pre c post); [done | by apply exact_match_exactly |].
  intros c' Hc'. by apply not_exactly, Hpre.
Qed.

Lemma pick_first_partly (pre : list candidate) (c : candidate)
    (post : list candidate) :
  (forall c', In c' (pre ++ c :: post) ->
              ~ exactly (shape_of s2 openalex dblp) target c') ->
  partly (shape_of s2 openalex dblp) target c ->
  (forall c', In c' pre -> ~ partly (shape_of s2 openalex dblp) target c') ->
  _pick_best_name_match target (pre ++ c :: post) s2 openalex dblp = Some c.
Proof.
  intros Hno Hc Hpre. rewrite pick_best_is_pick_spec. unfold pick_spec.
  rewrite find_nothing by (intros c' Hc'; by apply not_exactly, Hno).
  rewrite (find_first _ pre c post); [done | by apply substring_match_partly |].
  intros c' Hc'. by apply not_partly, Hpre.
Qed.

Lemma pick_default (cs : list candidate) :
  (forall c', In c' cs -> ~ exactly (shape_of s2 openalex dblp) target c') ->
  (forall c', In c' cs -> ~ partly (shape_of s2 openalex dblp) target c') ->
  _pick_best_name_match target cs s2 openalex dblp = head cs.
Proof.
  intros Hne Hnp. rewrite pick_best_is_pick_spec. unfold pick_spec.
  rewrite find_nothing by (intros c' Hc'; by apply not_exactly, Hne).
  by rewrite find_nothing by (intros c' Hc'; by apply not_partly, Hnp).
Qed.

Lemma pick_none_iff (cs : list candidate) :
  _pick_best_name_match target cs s2 openalex dblp = None <-> cs = [].
Proof. rewrite pick_best_is_pick_spec. apply pick_spec_none. Qed.

Lemma pick_in (cs : list candidate) (c : candidate) :
  _pick_best_name_match target cs s2 openalex dblp = Some c -> In c cs.
Proof. rewrite pick_best_is_pick_spec. apply pick_spec_in. Qed.

End Policy.

(** C5, as the code has it: the matcher answers [None] exactly on the
    empty candidate list, and any answer is one of the candidates.  With
    names compared in normal form (lower-cased, periods removed, and then
    the white space at both ends removed), it answers the first candidate
    one of whose names equals the target; without such a candidate, the
    first candidate one of whose names holds the target or is held by it;
    without such a candidate either, the first candidate of the list. *)
Theorem pick_best_name_match_by_normal_form (target_name : string)
    (cs : list candidate) (s2 openalex dblp : bool) :
  (_pick_best_name_match target_name cs s2 openalex dblp = None
   <-> cs = []) /\
  (forall c, _pick_best_name_match target_name cs s2 openalex dblp = Some c ->
             In c cs) /\
  (forall pre c post,
     cs = (pre ++ c :: post)%list ->
     exactly (shape_of s2 openalex dblp) target_name c ->
     (forall c', In c' pre ->
                 ~ exactly (shape_of s2 openalex dblp) target_name c') ->
     _pick_best_name_match target_name cs s2 openalex dblp = Some c) /\
  (forall pre c post,
     cs = (pre ++ c :: post)%list ->
     (forall c', In c' cs ->
                 ~ exactly (shape_of s2 openalex dblp) target_name c') ->
     partly (shape_of s2 openalex dblp) target_name c ->
     (forall c', In c' pre ->
                 ~ partly (shape_of s2 openalex dblp) target_name c') ->
     _pick_best_name_match target_name cs s2 openalex dblp = Some c) /\
  ((forall c', In c' cs ->
               ~ exactly (shape_of s2 openalex dblp) target_name c') ->
   (forall c', In c' cs ->
               ~ partly (shape_of s2 openalex dblp) target_name c') ->
   _pick_best_name_match target_name cs s2 openalex dblp = head cs).
Proof.
  split; [apply pick_none_iff|]. split; [apply pick_in|].
  split; [|split].
  - intros pre c post ->. apply pick_first_exact.
  - intros pre c post ->. apply pick_first_partly.
  - apply pick_default.
Qed.

(** The second candidate has an alias that equals the target in normal
    form; the first only holds the target, and the third, equal to the
    target as well, comes later. *)
Lemma pick_best_name_match_by_normal_form_witness :
  _pick_best_name_match "J. Smith" [john; jane; jay] true false false
  = Some jane.
Proof.
  destruct (pick_best_name_match_by_normal_form "J. Smith" [john; jane; jay]
              true false false) as (_ & _ & Hexact & _).
  apply (Hexact [john] jane [jay]).
  - reflexivity.
  - exists "  J. SMITH ". split; [vm_compute; tauto | vm_compute; reflexivity].
  - intros c' [<-|[]] (n & Hin & Heq). vm_compute in Hin.
    destruct Hin as [<-|[<-|[]]]; vm_compute in Heq; discriminate Heq.
Defined.

(** C5 fails as worded: with names only lower-cased and freed of periods,
    [" ann "] is no exact match for ["ann"] and the second candidate is the
    first exact match; the code trims, and answers the first candidate. *)
Lemma pick_best_trims_names :
  ~ (claimed_exact Plain "ann" ann ->
     (forall c', In c' [ann_padded] -> ~ claimed_exact Plain "ann" c') ->
     _pick_best_name_match "ann" [ann_padded; ann] false false false
     = Some ann).
Proof.
  intros H.
  assert (_pick_best_name_match "ann" [ann_padded; ann] false false false
          = Some ann) as Hpick.
  { apply H.
    - exists "ann". split; [vm_compute; tauto | reflexivity].
    - intros c' [<-|[]] (n & Hin & Heq). vm_compute in Hin.
      destruct Hin as [<-|[]]. vm_compute in Heq. discriminate Heq. }
  vm_compute in Hpick. discriminate Hpick.
Qed.

(** Matches away from the head of the list, and letters beyond A-Z. *)
Example pick_best_partial_match :
  _pick_best_name_match "smith"
    [named "Ada Lovelace"; named "John Smithson"; named "Will Smith"]
    false false false
  = Some (named "John Smithson").
Proof. vm_compute. reflexivity. Qed.

Example pick_best_exact_beats_partial :
  _pick_best_name_match "a. lovelace"
    [named "Ada Lovelace"; named "A Lovelace-King"; named " A. LOVELACE"]
    false false false
  = Some (named " A. LOVELACE").
Proof. vm_compute. reflexivity. Qed.

Example pick_best_no_match :
  _pick_best_name_match "Grace Hopper"
    [named "Ada Lovelace"; named "John Smithson"] false false false
  = Some (named "Ada Lovelace").
Proof. vm_compute. reflexivity. Qed.

Example norm_accented_capital :
  norm (Some ("JOS" ++ String "201"%char (" GARC" ++ String "205"%char "A.")))
  = "jos" ++ String "233"%char (" garc" ++ String "237"%char "a").
Proof. vm_compute. reflexivity. Qed.
